(** * Verification of the edtech-api suggestion service

    A shallow embedding of [services/edtech-api/app.py] and
    [services/edtech-api/ollama_client.py], with the parts of the Python
    runtime they rely on ([str.encode], [hashlib.sha256], [json.loads],
    [json.dumps], dynamic typing of JSON values), followed by the
    properties of the service stated as theorems. *)

From Stdlib Require Import List String Ascii NArith ZArith Bool Lia.
From Stdlib Require Import DecimalString DecimalZ.
Import ListNotations.

Set Warnings "-register-all".

Local Open Scope N_scope.
Local Open Scope list_scope.

(** ** Python text

    A Python [str] is a sequence of Unicode code points.  Code points in
    [0xD800, 0xDFFF] (lone surrogates) are legal members of a [str] -- the
    JSON text ["\ud800"] decodes to one -- but have no UTF-8 encoding. *)

Definition pystr := list N.

(** [str "abc"] is the Python literal ['abc'] (ASCII only). *)
Definition str (s : string) : pystr :=
  map N_of_ascii (list_ascii_of_string s).
Arguments str s : simpl never.

Fixpoint pystr_eqb (s t : pystr) : bool :=
  match s, t with
  | [], [] => true
  | c :: s', d :: t' => (c =? d) && pystr_eqb s' t'
  | _, _ => false
  end.

Fixpoint starts_with (p s : pystr) : bool :=
  match p, s with
  | [], _ => true
  | c :: p', d :: s' => (c =? d) && starts_with p' s'
  | _ :: _, [] => false
  end.

(** [occurs_in p s] is Python's [p in s] on two strings. *)
Fixpoint occurs_in (p s : pystr) : bool :=
  starts_with p s ||
  match s with
  | [] => false
  | _ :: s' => occurs_in p s'
  end.

(** [str(n)] for a Python [int]. *)
Definition str_of_int (z : Z) : pystr :=
  str (NilZero.string_of_int (Z.to_int z)).

(** [sep.join(parts)] on strings. *)
Fixpoint join (sep : pystr) (parts : list pystr) : pystr :=
  match parts with
  | [] => []
  | [p] => p
  | p :: rest => p ++ sep ++ join sep rest
  end.

(** [s.rstrip("/")]: drops every trailing occurrence of the character. *)
Fixpoint rstrip (c : N) (s : pystr) : pystr :=
  match s with
  | [] => []
  | d :: s' =>
      match rstrip c s' with
      | [] => if d =? c then [] else [d]
      | r => d :: r
      end
  end.

(** ** Exceptions

    An exception is its class and the text [str(e)] gives for it.
    [Exception_] is the bare built-in [Exception], which only the
    [raise Exception(error_msg)] statements of [ollama_client.py] construct;
    [requests] raises exceptions of its own hierarchy, injected by
    [Requests]. *)

Inductive requests_exc :=
| Timeout
| ConnectTimeout
| ReadTimeout
| ConnectionError
| SSLError
| JSONDecodeError
| RequestException.

Inductive exc_class :=
| Exception_
| TypeError
| AttributeError
| KeyError
| UnicodeEncodeError
| OSError
| Requests (k : requests_exc).

Record exn := mkExn { exn_class : exc_class; exn_str : pystr }.

(** [isinstance(e, requests.exceptions.Timeout)]: [ConnectTimeout] derives
    from both [ConnectionError] and [Timeout]. *)
Definition is_Timeout (c : exc_class) : bool :=
  match c with
  | Requests (Timeout | ConnectTimeout | ReadTimeout) => true
  | _ => false
  end.

(** [isinstance(e, requests.exceptions.ConnectionError)] *)
Definition is_ConnectionError (c : exc_class) : bool :=
  match c with
  | Requests (ConnectionError | ConnectTimeout | SSLError) => true
  | _ => false
  end.

(** A computation that returns or raises. *)
Inductive outcome (A : Type) :=
| Ret (a : A)
| Raise (e : exn).
Arguments Ret {A} a.
Arguments Raise {A} e.

(** ** [str.encode()]: UTF-8, strict *)

Module Codec.

Definition is_surrogate (c : N) : bool := (0xD800 <=? c) && (c <=? 0xDFFF).

(** One code point to its UTF-8 bytes; [None] where the strict codec
    refuses (surrogates) or the value is no code point at all. *)
Definition encode_cp (c : N) : option (list N) :=
  if c <? 0x80 then Some [c]
  else if c <? 0x800 then
    Some [N.lor 0xC0 (N.shiftr c 6); N.lor 0x80 (N.land c 0x3F)]
  else if is_surrogate c then None
  else if c <? 0x10000 then
    Some [N.lor 0xE0 (N.shiftr c 12);
          N.lor 0x80 (N.land (N.shiftr c 6) 0x3F);
          N.lor 0x80 (N.land c 0x3F)]
  else if c <? 0x110000 then
    Some [N.lor 0xF0 (N.shiftr c 18);
          N.lor 0x80 (N.land (N.shiftr c 12) 0x3F);
          N.lor 0x80 (N.land (N.shiftr c 6) 0x3F);
          N.lor 0x80 (N.land c 0x3F)]
  else None.

Fixpoint utf8 (s : pystr) : option (list N) :=
  match s with
  | [] => Some []
  | c :: s' =>
      match encode_cp c, utf8 s' with
      | Some b, Some bs => Some (b ++ bs)
      | _, _ => None
      end
  end.

(** The text of the [UnicodeEncodeError]; CPython adds the offending
    character and its position, which the service never inspects. *)
Definition encode_error : exn :=
  mkExn UnicodeEncodeError
        (str "'utf-8' codec can't encode character: surrogates not allowed").

Definition encode (s : pystr) : outcome (list N) :=
  match utf8 s with
  | Some bs => Ret bs
  | None => Raise encode_error
  end.

(** Strings the strict codec accepts: Unicode scalar values only. *)
Definition encodable (s : pystr) : Prop :=
  Forall (fun c => c < 0x110000 /\ is_surrogate c = false) s.

End Codec.

(** ** [hashlib.sha256] (FIPS 180-4), on 32-bit words kept in [N] *)

Module Hashlib.

Definition mask32 : N := 0xffffffff.
Definition add32 (x y : N) : N := N.land (x + y) mask32.
Definition rotr (n x : N) : N :=
  N.lor (N.shiftr x n) (N.land (N.shiftl x (32 - n)) mask32).
Definition not32 (x : N) : N := N.lxor x mask32.

Definition Ch (x y z : N) : N := N.lxor (N.land x y) (N.land (not32 x) z).
Definition Maj (x y z : N) : N :=
  N.lxor (N.lxor (N.land x y) (N.land x z)) (N.land y z).
Definition Sigma0 (x : N) : N := N.lxor (N.lxor (rotr 2 x) (rotr 13 x)) (rotr 22 x).
Definition Sigma1 (x : N) : N := N.lxor (N.lxor (rotr 6 x) (rotr 11 x)) (rotr 25 x).
Definition sigma0 (x : N) : N := N.lxor (N.lxor (rotr 7 x) (rotr 18 x)) (N.shiftr x 3).
Definition sigma1 (x : N) : N := N.lxor (N.lxor (rotr 17 x) (rotr 19 x)) (N.shiftr x 10).

(** The constants are defined as the standard defines them: the first 32
    bits of the fractional parts of the cube roots (round constants) and of
    the square roots (initial state) of the first primes. *)

Definition is_prime (n : N) : bool :=
  (2 <=? n) &&
  forallb (fun d => negb (n mod (N.of_nat d) =? 0)) (seq 2 (N.to_nat n - 2)).

Fixpoint primes_from (fuel : nat) (candidate : N) (count : nat) : list N :=
  match fuel, count with
  | O, _ | _, O => []
  | S fuel', S count' =>
      if is_prime candidate
      then candidate :: primes_from fuel' (candidate + 1) count'
      else primes_from fuel' (candidate + 1) count
  end.

Definition first_primes (count : nat) : list N := primes_from 400 2 count.

(** The greatest [r] below [2 ^ bits] with [r ^ k <= n], bit by bit. *)
Fixpoint root (k n : N) (bits : nat) (r : N) : N :=
  match bits with
  | O => r
  | S b =>
      let r' := N.lor r (N.shiftl 1 (N.of_nat b)) in
      root k n b (if r' ^ k <=? n then r' else r)
  end.

(** The first 32 bits of the fractional part of the [k]-th root of [p]. *)
Definition frac_root (k p : N) : N :=
  N.land (root k (N.shiftl p (32 * k)) 40 0) mask32.

Definition K : list N := map (frac_root 3) (first_primes 64).

(** The eight working words. *)
Record hstate := mkH { ha : N; hb : N; hc : N; hd : N;
                       he : N; hf : N; hg : N; hh : N }.

Definition H0 : hstate :=
  match map (frac_root 2) (first_primes 8) with
  | [a; b; c; d; e; f; g; h] => mkH a b c d e f g h
  | _ => mkH 0 0 0 0 0 0 0 0
  end.

(** Padding: a [1] bit, zeros up to 56 mod 64, the bit length on 8 bytes. *)
Definition be_bytes (n : nat) (x : N) : list N :=
  map (fun i => N.land (N.shiftr x (8 * N.of_nat i)) 0xff) (rev (seq 0 n)).

Definition pad (msg : list N) : list N :=
  let len := N.of_nat (List.length msg) in
  let zeros := (119 - len mod 64) mod 64 in
  msg ++ [0x80] ++ repeat 0 (N.to_nat zeros) ++ be_bytes 8 (8 * len).

Fixpoint be_word (bs : list N) (acc : N) : N :=
  match bs with
  | [] => acc
  | b :: bs' => be_word bs' (N.lor (N.shiftl acc 8) b)
  end.

Fixpoint chunks {A} (size n : nat) (l : list A) : list (list A) :=
  match n with
  | O => []
  | S n' => firstn size l :: chunks size n' (skipn size l)
  end.

Definition words_of_block (block : list N) : list N :=
  map (fun w => be_word w 0) (chunks 4 16 block).

(** Message schedule, newest word first. *)
Fixpoint extend (n : nat) (w : list N) : list N :=
  match n with
  | O => w
  | S n' =>
      let x := add32 (add32 (sigma1 (nth 1 w 0)) (nth 6 w 0))
                     (add32 (sigma0 (nth 14 w 0)) (nth 15 w 0)) in
      extend n' (x :: w)
  end.

Definition schedule (block : list N) : list N :=
  rev (extend 48 (rev (words_of_block block))).

Definition round (s : hstate) (kw : N * N) : hstate :=
  let '(k, w) := kw in
  let t1 := add32 (add32 (add32 (add32 (hh s) (Sigma1 (he s)))
                                (Ch (he s) (hf s) (hg s))) k) w in
  let t2 := add32 (Sigma0 (ha s)) (Maj (ha s) (hb s) (hc s)) in
  mkH (add32 t1 t2) (ha s) (hb s) (hc s) (add32 (hd s) t1) (he s) (hf s) (hg s).

Definition compress (s : hstate) (block : list N) : hstate :=
  let r := fold_left round (combine K (schedule block)) s in
  mkH (add32 (ha s) (ha r)) (add32 (hb s) (hb r))
      (add32 (hc s) (hc r)) (add32 (hd s) (hd r))
      (add32 (he s) (he r)) (add32 (hf s) (hf r))
      (add32 (hg s) (hg r)) (add32 (hh s) (hh r)).

Definition final_state (msg : list N) : hstate :=
  let p := pad msg in
  fold_left compress (chunks 64 (List.length p / 64) p) H0.

Definition word_bytes (x : N) : list N :=
  [ N.land (N.shiftr x 24) 0xff; N.land (N.shiftr x 16) 0xff;
    N.land (N.shiftr x 8) 0xff; N.land x 0xff ].

(** [hashlib.sha256(msg).digest()] *)
Definition digest (msg : list N) : list N :=
  let s := final_state msg in
  word_bytes (ha s) ++ word_bytes (hb s) ++ word_bytes (hc s) ++
  word_bytes (hd s) ++ word_bytes (he s) ++ word_bytes (hf s) ++
  word_bytes (hg s) ++ word_bytes (hh s).

(** One lowercase hexadecimal digit, as a code point. *)
Definition hexdigit (n : N) : N :=
  if n <? 10 then 48 + n else 87 + n.

Definition hex_byte (b : N) : pystr :=
  [hexdigit (N.shiftr b 4); hexdigit (N.land b 0xf)].

(** [hashlib.sha256(msg).hexdigest()] *)
Definition hexdigest (msg : list N) : pystr :=
  flat_map hex_byte (digest msg).

End Hashlib.

(** ** Python values

    What [request.get_json()] and [json.loads] build.  A [float] is kept as
    the decimal numeral it was read from (sign, digits, power of ten), or as
    one of the non-finite values [json.loads] also accepts; the service
    never computes with floats.  A [dict] is its items in insertion order,
    keys unique; keys are always strings here. *)

Inductive pyfloat :=
| FDec (neg : bool) (mant : N) (exp10 : Z)
| FInf (neg : bool)
| FNaN.

Inductive pyval :=
| PNone
| PBool (b : bool)
| PInt (z : Z)
| PFloat (f : pyfloat)
| PStr (s : pystr)
| PList (l : list pyval)
| PDict (d : list (pystr * pyval)).

Definition pydict := list (pystr * pyval).

(** The literal [0.0]. *)
Definition float_0_0 : pyfloat := FDec false 0 (-1).

(** [type(v).__name__] *)
Definition type_name (v : pyval) : pystr :=
  match v with
  | PNone => str "NoneType"
  | PBool _ => str "bool"
  | PInt _ => str "int"
  | PFloat _ => str "float"
  | PStr _ => str "str"
  | PList _ => str "list"
  | PDict _ => str "dict"
  end.

Fixpoint dict_get (k : pystr) (d : pydict) : option pyval :=
  match d with
  | [] => None
  | (k', v) :: d' => if pystr_eqb k k' then Some v else dict_get k d'
  end.

(** [d[k] = v]: an existing key keeps its place, a new one goes last. *)
Fixpoint dict_set (k : pystr) (v : pyval) (d : pydict) : pydict :=
  match d with
  | [] => [(k, v)]
  | (k', v') :: d' =>
      if pystr_eqb k k' then (k, v) :: d' else (k', v') :: dict_set k v d'
  end.

Definition dict_has (k : pystr) (d : pydict) : bool :=
  match dict_get k d with Some _ => true | None => false end.

(** A float reads as zero when its numeral is zero or lies at or below
    half the least subnormal, [2^-1075] (round-half-even). *)
Definition float_is_zero (f : pyfloat) : bool :=
  match f with
  | FDec _ m e =>
      (m =? 0) ||
      (if (e <? 0)%Z
       then (Z.of_N m * 2 ^ 1075 <=? 10 ^ (- e))%Z
       else false)
  | _ => false
  end.

(** [bool(v)], as [not data] takes it. *)
Definition truthy (v : pyval) : bool :=
  match v with
  | PNone => false
  | PBool b => b
  | PInt z => negb (z =? 0)%Z
  | PFloat f => negb (float_is_zero f)
  | PStr s => match s with [] => false | _ => true end
  | PList l => match l with [] => false | _ => true end
  | PDict d => match d with [] => false | _ => true end
  end.

Definition type_error (msg : pystr) : exn := mkExn TypeError msg.
Definition attribute_error (v : pyval) (attr : string) : exn :=
  mkExn AttributeError
        (str "'" ++ type_name v ++ str "' object has no attribute '"
             ++ str attr ++ str "'").

(** [k in v] for a string [k]: key of a dict, element of a list,
    substring of a string; anything else is not iterable. *)
Definition py_in (k : pystr) (v : pyval) : outcome bool :=
  match v with
  | PDict d => Ret (dict_has k d)
  | PList l =>
      Ret (existsb (fun x => match x with
                             | PStr s => pystr_eqb k s
                             | _ => false
                             end) l)
  | PStr s => Ret (occurs_in k s)
  | _ => Raise (type_error (str "argument of type '" ++ type_name v
                                ++ str "' is not iterable"))
  end.

(** [v[k]] for a string [k]. *)
Definition py_getitem (v : pyval) (k : pystr) : outcome pyval :=
  match v with
  | PDict d =>
      match dict_get k d with
      | Some x => Ret x
      | None => Raise (mkExn KeyError (str "'" ++ k ++ str "'"))
      end
  | PList _ =>
      Raise (type_error (str "list indices must be integers or slices, not str"))
  | PStr _ =>
      Raise (type_error (str "string indices must be integers, not 'str'"))
  | _ => Raise (type_error (str "'" ++ type_name v
                                ++ str "' object is not subscriptable"))
  end.

(** [v[k] = x] for a string [k]; the updated object is returned. *)
Definition py_setitem (v : pyval) (k : pystr) (x : pyval) : outcome pyval :=
  match v with
  | PDict d => Ret (PDict (dict_set k x d))
  | PList _ =>
      Raise (type_error (str "list indices must be integers or slices, not str"))
  | _ => Raise (type_error (str "'" ++ type_name v
                                ++ str "' object does not support item assignment"))
  end.

(** [v.get(k, default)] *)
Definition py_get (v : pyval) (k : pystr) (default : pyval) : outcome pyval :=
  match v with
  | PDict d =>
      Ret (match dict_get k d with Some x => x | None => default end)
  | _ => Raise (attribute_error v "get")
  end.

(** [len(v)] *)
Definition py_len (v : pyval) : outcome Z :=
  match v with
  | PStr s => Ret (Z.of_nat (List.length s))
  | PList l => Ret (Z.of_nat (List.length l))
  | PDict d => Ret (Z.of_nat (List.length d))
  | _ => Raise (type_error (str "object of type '" ++ type_name v
                                ++ str "' has no len()"))
  end.

(** [isinstance(v, list)] *)
Definition is_list (v : pyval) : bool :=
  match v with PList _ => true | _ => false end.

(** [sep.join(items)] on a list of values: every item must be a [str]. *)
Fixpoint join_values (i : nat) (items : list pyval) : outcome (list pystr) :=
  match items with
  | [] => Ret []
  | PStr s :: rest =>
      match join_values (S i) rest with
      | Ret ss => Ret (s :: ss)
      | Raise e => Raise e
      end
  | v :: _ =>
      Raise (type_error (str "sequence item " ++ str_of_int (Z.of_nat i)
                             ++ str ": expected str instance, "
                             ++ type_name v ++ str " found"))
  end.

Definition py_join (sep : pystr) (items : list pyval) : outcome pystr :=
  match join_values 0 items with
  | Ret ss => Ret (join sep ss)
  | Raise e => Raise e
  end.

(** ** [json.dumps] and [json.loads] *)

Module Json.

(** *** Encoding, as [json.dumps(v, indent=2)] does it
    ([ensure_ascii] and [allow_nan] left at their defaults).  [float_repr]
    is [float.__repr__], which the decimal reading of floats does not
    determine; it is an argument. *)

Definition hex4_of (n : N) : pystr :=
  [ Hashlib.hexdigit (N.land (N.shiftr n 12) 0xf);
    Hashlib.hexdigit (N.land (N.shiftr n 8) 0xf);
    Hashlib.hexdigit (N.land (N.shiftr n 4) 0xf);
    Hashlib.hexdigit (N.land n 0xf) ].

Definition u_escape (n : N) : pystr := str "\u" ++ hex4_of n.

Definition escape_char (c : N) : pystr :=
  if c =? 34 then [92; 34]
  else if c =? 92 then str "\\"
  else if c =? 10 then str "\n"
  else if c =? 13 then str "\r"
  else if c =? 9 then str "\t"
  else if c =? 8 then str "\b"
  else if c =? 12 then str "\f"
  else if (32 <=? c) && (c <=? 126) then [c]
  else if c <? 0x10000 then u_escape c
  else
    let v := c - 0x10000 in
    u_escape (N.lor 0xD800 (N.land (N.shiftr v 10) 0x3ff))
    ++ u_escape (N.lor 0xDC00 (N.land v 0x3ff)).

Definition encode_str (s : pystr) : pystr :=
  [34] ++ flat_map escape_char s ++ [34].

Definition newline_indent (level : nat) : pystr :=
  10 :: repeat 32 (2 * level).

Definition sep_items (level : nat) (items : list pystr) : pystr :=
  join (44 :: newline_indent level) items.

Fixpoint dumps_indent (float_repr : pyfloat -> pystr)
         (level : nat) (v : pyval) : pystr :=
  match v with
  | PNone => str "null"
  | PBool true => str "true"
  | PBool false => str "false"
  | PInt z => str_of_int z
  | PFloat FNaN => str "NaN"
  | PFloat (FInf false) => str "Infinity"
  | PFloat (FInf true) => str "-Infinity"
  | PFloat f => float_repr f
  | PStr s => encode_str s
  | PList [] => str "[]"
  | PList l =>
      str "[" ++ newline_indent (S level)
      ++ sep_items (S level) (map (dumps_indent float_repr (S level)) l)
      ++ newline_indent level ++ str "]"
  | PDict [] => str "{}"
  | PDict d =>
      str "{" ++ newline_indent (S level)
      ++ sep_items (S level)
           (map (fun kv => encode_str (fst kv) ++ str ": "
                           ++ dumps_indent float_repr (S level) (snd kv)) d)
      ++ newline_indent level ++ str "}"
  end.

(** *** Decoding, as [json.loads] does it on a [str], within the
    interpreter's resource limits (recursion depth, digits of an [int]). *)

Inductive pres (A : Type) :=
| POk (a : A) (rest : pystr)
| PErr
| PFuel.
Arguments POk {A} a rest.
Arguments PErr {A}.
Arguments PFuel {A}.

Definition is_ws (c : N) : bool :=
  (c =? 32) || (c =? 9) || (c =? 10) || (c =? 13).

Fixpoint skip_ws (s : pystr) : pystr :=
  match s with
  | c :: s' => if is_ws c then skip_ws s' else s
  | [] => []
  end.

Definition is_digit (c : N) : bool := (48 <=? c) && (c <=? 57).

Definition hexval (c : N) : option N :=
  if is_digit c then Some (c - 48)
  else if (97 <=? c) && (c <=? 102) then Some (c - 87)
  else if (65 <=? c) && (c <=? 70) then Some (c - 55)
  else None.

Definition hex4 (a b c d : N) : option N :=
  match hexval a, hexval b, hexval c, hexval d with
  | Some x, Some y, Some z, Some w => Some (((x * 16 + y) * 16 + z) * 16 + w)
  | _, _, _, _ => None
  end.

Definition unescape (e : N) : option N :=
  if e =? 34 then Some 34
  else if e =? 92 then Some 92
  else if e =? 47 then Some 47
  else if e =? 98 then Some 8
  else if e =? 102 then Some 12
  else if e =? 110 then Some 10
  else if e =? 114 then Some 13
  else if e =? 116 then Some 9
  else None.

Definition is_high (u : N) : bool := (0xD800 <=? u) && (u <=? 0xDBFF).
Definition is_low (u : N) : bool := (0xDC00 <=? u) && (u <=? 0xDFFF).

(** The low half of a surrogate pair, when the text goes on with one. *)
Definition low_escape (b u l1 l2 l3 l4 : N) : option N :=
  if (b =? 92) && (u =? 117) then
    match hex4 l1 l2 l3 l4 with
    | Some lo => if is_low lo then Some lo else None
    | None => None
    end
  else None.

(** The body of a string, from after its opening quote; [acc] is what has
    been read, last character first. *)
Fixpoint scan_string (s : pystr) (acc : pystr) : pres pystr :=
  match s with
  | [] => PErr
  | c :: s1 =>
      if c =? 34 then POk (rev acc) s1
      else if c <? 32 then PErr
      else if c =? 92 then
        match s1 with
        | [] => PErr
        | e :: s2 =>
            if e =? 117 then
              match s2 with
              | h1 :: h2 :: h3 :: h4 :: s3 =>
                  match hex4 h1 h2 h3 h4 with
                  | None => PErr
                  | Some hi =>
                      match s3 with
                      | b :: u :: l1 :: l2 :: l3 :: l4 :: s4 =>
                          match (if is_high hi
                                 then low_escape b u l1 l2 l3 l4
                                 else None) with
                          | Some lo =>
                              scan_string s4
                                (0x10000 + N.lor (N.shiftl (hi - 0xD800) 10)
                                                 (lo - 0xDC00) :: acc)
                          | None => scan_string s3 (hi :: acc)
                          end
                      | _ => scan_string s3 (hi :: acc)
                      end
                  end
              | _ => PErr
              end
            else
              match unescape e with
              | Some x => scan_string s2 (x :: acc)
              | None => PErr
              end
        end
      else scan_string s1 (c :: acc)
  end.

Fixpoint span_digits (s : pystr) : pystr * pystr :=
  match s with
  | c :: s' =>
      if is_digit c
      then let (ds, r) := span_digits s' in (c :: ds, r)
      else ([], s)
  | [] => ([], [])
  end.

Definition digits_value (ds : pystr) : N :=
  fold_left (fun a c => a * 10 + (c - 48)) ds 0.

(** The integer part of a number: [0] alone, or a nonzero digit and more. *)
Definition scan_int (s : pystr) : option (pystr * pystr) :=
  match s with
  | c :: s' =>
      if c =? 48 then Some ([c], s')
      else if is_digit c then let (ds, r) := span_digits s' in Some (c :: ds, r)
      else None
  | [] => None
  end.

(** The fraction, when a dot is followed by a digit. *)
Definition scan_frac (s : pystr) : option (pystr * pystr) :=
  match s with
  | c :: s' =>
      if c =? 46 then
        match span_digits s' with
        | ([], _) => None
        | (ds, r) => Some (ds, r)
        end
      else None
  | [] => None
  end.

(** The exponent, when [e] or [E], an optional sign and a digit follow. *)
Definition scan_exp (s : pystr) : option (Z * pystr) :=
  match s with
  | c :: s' =>
      if (c =? 101) || (c =? 69) then
        let '(sign, s'') :=
          match s' with
          | d :: t => if d =? 45 then (true, t)
                      else if d =? 43 then (false, t)
                      else (false, s')
          | [] => (false, s')
          end in
        match span_digits s'' with
        | ([], _) => None
        | (ds, r) =>
            let n := Z.of_N (digits_value ds) in
            Some (if sign then (- n)%Z else n, r)
        end
      else None
  | [] => None
  end.

Definition scan_number (s : pystr) : pres pyval :=
  let '(neg, s0) :=
    match s with
    | c :: t => if c =? 45 then (true, t) else (false, s)
    | [] => (false, s)
    end in
  match scan_int s0 with
  | None => PErr
  | Some (ip, r1) =>
      match scan_frac r1, (match scan_frac r1 with
                           | Some (_, r2) => scan_exp r2
                           | None => scan_exp r1
                           end) with
      | None, None =>
          let n := Z.of_N (digits_value ip) in
          POk (PInt (if neg then (- n)%Z else n)) r1
      | Some (fp, r2), None =>
          POk (PFloat (FDec neg (digits_value (ip ++ fp))
                            (- Z.of_nat (List.length fp)))) r2
      | None, Some (e, r3) =>
          POk (PFloat (FDec neg (digits_value ip) e)) r3
      | Some (fp, _), Some (e, r3) =>
          POk (PFloat (FDec neg (digits_value (ip ++ fp))
                            (e - Z.of_nat (List.length fp)))) r3
      end
  end.

Definition scan_literal (lit : string) (v : pyval) (s : pystr) : pres pyval :=
  if starts_with (str lit) s
  then POk v (skipn (List.length (str lit)) s)
  else PErr.

Fixpoint parse_value (fuel : nat) (s : pystr) : pres pyval :=
  match fuel with
  | O => PFuel
  | S f =>
      match s with
      | [] => PErr
      | c :: s1 =>
          if c =? 34 then
            match scan_string s1 [] with
            | POk k r => POk (PStr k) r
            | PErr => PErr
            | PFuel => PFuel
            end
          else if c =? 123 then
            match skip_ws s1 with
            | d :: r => if d =? 125 then POk (PDict []) r
                        else parse_members f [] (d :: r)
            | [] => PErr
            end
          else if c =? 91 then
            match skip_ws s1 with
            | d :: r => if d =? 93 then POk (PList []) r
                        else parse_elems f [] (d :: r)
            | [] => PErr
            end
          else if c =? 110 then scan_literal "null" PNone s
          else if c =? 116 then scan_literal "true" (PBool true) s
          else if c =? 102 then scan_literal "false" (PBool false) s
          else
            match scan_number s with
            | POk v r => POk v r
            | _ =>
                if c =? 78 then scan_literal "NaN" (PFloat FNaN) s
                else if c =? 73 then
                  scan_literal "Infinity" (PFloat (FInf false)) s
                else if c =? 45 then
                  scan_literal "-Infinity" (PFloat (FInf true)) s
                else PErr
            end
      end
  end

with parse_elems (fuel : nat) (acc : list pyval) (s : pystr) : pres pyval :=
  match fuel with
  | O => PFuel
  | S f =>
      match parse_value f s with
      | POk v r =>
          match skip_ws r with
          | d :: r' =>
              if d =? 44 then parse_elems f (v :: acc) (skip_ws r')
              else if d =? 93 then POk (PList (rev (v :: acc))) r'
              else PErr
          | [] => PErr
          end
      | PErr => PErr
      | PFuel => PFuel
      end
  end

with parse_members (fuel : nat) (acc : pydict) (s : pystr) : pres pyval :=
  match fuel with
  | O => PFuel
  | S f =>
      match s with
      | q :: s1 =>
          if q =? 34 then
            match scan_string s1 [] with
            | POk k r =>
                match skip_ws r with
                | c :: r1 =>
                    if c =? 58 then
                      match parse_value f (skip_ws r1) with
                      | POk v r2 =>
                          match skip_ws r2 with
                          | d :: r3 =>
                              if d =? 44
                              then parse_members f (dict_set k v acc) (skip_ws r3)
                              else if d =? 125
                              then POk (PDict (dict_set k v acc)) r3
                              else PErr
                          | [] => PErr
                          end
                      | PErr => PErr
                      | PFuel => PFuel
                      end
                    else PErr
                | [] => PErr
                end
            | PErr => PErr
            | PFuel => PFuel
            end
          else PErr
      | [] => PErr
      end
  end.

(** [json.loads(s)] on a string: [None] stands for [JSONDecodeError].
    The fuel is never used up ([JsonFacts.loads_fuel]). *)
Definition loads (s : pystr) : option pyval :=
  let s0 := skip_ws s in
  match parse_value (2 * List.length s0 + 1) s0 with
  | POk v r => match skip_ws r with [] => Some v | _ => None end
  | _ => None
  end.

End Json.

(** ** The world around the service *)

Inductive http_reply := mkReply {
  status_code : Z;                 (* response.status_code *)
  text : pystr;                    (* response.text *)
  json : option pyval              (* response.json(); [None]: the body is not JSON *)
}.

(** A call of [requests] returns a response or raises one of its own
    exceptions. *)
Inductive http_result :=
| Replied (r : http_reply)
| Failed (k : requests_exc) (msg : pystr).

(** What the runtime and the outside decide. *)
Record env := mkEnv {
  py_repr : pyval -> pystr;                   (* repr(v) *)
  utcnow : nat -> pystr;                      (* n-th datetime.utcnow().isoformat() *)
  requests_get : pystr -> Z -> http_result;   (* requests.get(url, timeout=t) *)
  requests_post : pystr -> pyval -> Z -> http_result;
                                              (* requests.post(url, json=p, timeout=t) *)
  audit_fault : option exn                    (* what appending to AI_DECISION_LOG raises *)
}.

Inductive level := DEBUG | INFO | WARNING | ERROR.

(** The log lines of the two modules, by site, with the values they
    interpolate. *)
Inductive log_line :=
| LogInit (host model : pystr)
| LogHealthFailed (e : exn)
| LogVersionFailed (e : exn)
| LogQueryModel (model : pystr)
| LogPrompt (head : pystr)
| LogReceived (chars : Z)
| LogResponse (head : pyval)
| LogClientError (error_msg : pystr)
| LogUnexpected (e : exn)
| LogQuerying (devices : Z)
| LogNonJson (ollama_response : pystr)
| LogEndpointError (endpoint : string) (e : exn)
| LogDecision (human_decision : pyval)
| LogDecisionFailed (e : exn)
| LogFeedback (decision timestamp : pyval).

Definition level_of (l : log_line) : level :=
  match l with
  | LogInit _ _ | LogQueryModel _ | LogReceived _ | LogQuerying _
  | LogDecision _ | LogFeedback _ _ => INFO
  | LogPrompt _ | LogResponse _ => DEBUG
  | LogNonJson _ => WARNING
  | LogHealthFailed _ | LogVersionFailed _ | LogClientError _
  | LogUnexpected _ | LogEndpointError _ _ | LogDecisionFailed _ => ERROR
  end.

(** What a request can change. *)
Record world := mkWorld {
  ticks : nat;               (* readings of the clock so far *)
  audit : list pyval;        (* records of AI_DECISION_LOG, oldest first *)
  queries : list pystr;      (* prompts handed to [OllamaClient.query], oldest first *)
  logged : list log_line     (* oldest first *)
}.

(** *** State and exceptions *)

Definition M (A : Type) : Type := world -> outcome A * world.

Definition ret {A} (a : A) : M A := fun w => (Ret a, w).
Definition raise {A} (e : exn) : M A := fun w => (Raise e, w).
Definition bind {A B} (c : M A) (k : A -> M B) : M B :=
  fun w => match c w with
           | (Ret a, w') => k a w'
           | (Raise e, w') => (Raise e, w')
           end.
(** [try: c  except Exception as e: h e] *)
Definition try_except {A} (c : M A) (h : exn -> M A) : M A :=
  fun w => match c w with
           | (Ret a, w') => (Ret a, w')
           | (Raise e, w') => h e w'
           end.
Definition lift {A} (o : outcome A) : M A := fun w => (o, w).

Declare Scope py_scope.
Delimit Scope py_scope with py.
Notation "x <- c ;; k" := (bind c (fun x => k))
  (at level 61, c at next level, right associativity) : py_scope.
Notation "c ;; k" := (bind c (fun _ => k))
  (at level 61, right associativity) : py_scope.
Notation "'let?' x := c 'in' k" :=
  (match c with Ret x => k | Raise e => Raise e end)
  (at level 10, x name, c at level 100, k at level 200).
Local Open Scope py_scope.

Definition log (l : log_line) : M unit :=
  fun w => (Ret tt, mkWorld (ticks w) (audit w) (queries w) (logged w ++ [l])).

(** [float.__repr__] *)
Definition float_repr (E : env) (f : pyfloat) : pystr := py_repr E (PFloat f).

(** What an f-string puts for [{v}]: [str(v)]. *)
Definition fmt (E : env) (v : pyval) : pystr :=
  match v with
  | PStr s => s
  | PInt z => str_of_int z
  | _ => py_repr E v
  end.

(** [datetime.utcnow().isoformat()] *)
Definition now (E : env) : M pystr :=
  fun w => (Ret (utcnow E (ticks w)),
            mkWorld (S (ticks w)) (audit w) (queries w) (logged w)).

Definition append_audit (entry : pyval) : M unit :=
  fun w => (Ret tt, mkWorld (ticks w) (audit w ++ [entry]) (queries w) (logged w)).

Definition note_query (prompt : pystr) : M unit :=
  fun w => (Ret tt, mkWorld (ticks w) (audit w) (queries w ++ [prompt]) (logged w)).

Definition http (r : http_result) : M http_reply :=
  match r with
  | Replied x => ret x
  | Failed k msg => raise (mkExn (Requests k) msg)
  end.

(** [response.json()] *)
Definition reply_json (r : http_reply) : M pyval :=
  match json r with
  | Some v => ret v
  | None => raise (mkExn (Requests JSONDecodeError) (str "Expecting value"))
  end.

(** [x[:n]] *)
Definition py_head (n : nat) (x : pyval) : outcome pyval :=
  match x with
  | PStr s => Ret (PStr (firstn n s))
  | PList l => Ret (PList (firstn n l))
  | PDict _ => Raise (type_error (str "unhashable type: 'slice'"))
  | _ => Raise (type_error (str "'" ++ type_name x
                                ++ str "' object is not subscriptable"))
  end.

(** ** [ollama_client.py] *)

Module OllamaClient.

Record t := mk { host : pystr; model : pystr; timeout : Z }.

(** [__init__(self, host, model="llama3:8b", timeout=30)] *)
Definition init (host_ : pystr) (model_ : pystr) (timeout_ : Z) : M t :=
  let self := mk (rstrip 47 host_) model_ timeout_ in
  log (LogInit (host self) (model self)) ;;
  ret self.

Definition default_model : pystr := str "llama3:8b".
Definition default_timeout : Z := 30.

Section Methods.
Variable E : env.
Variable self : t.

Definition is_healthy : M bool :=
  try_except
    (response <- http (requests_get E (host self ++ str "/api/version") 5) ;;
     ret (status_code response =? 200)%Z)
    (fun e => log (LogHealthFailed e) ;; ret false).

Definition get_version : M pyval :=
  returned <-
    try_except
      (response <- http (requests_get E (host self ++ str "/api/version") 5) ;;
       if (status_code response =? 200)%Z then
         version_data <- reply_json response ;;
         v <- lift (py_get version_data (str "version") (PStr (str "unknown"))) ;;
         ret (Some v)
       else ret None)
      (fun e => log (LogVersionFailed e) ;; ret None) ;;
  match returned with
  | Some v => ret v
  | None => ret (PStr (str "unknown"))
  end.

(** The three messages [query] raises a bare [Exception] with. *)
Definition msg_status (status : Z) (body : pystr) : pystr :=
  str "Ollama API returned " ++ str_of_int status ++ str ": " ++ body.
Definition msg_timeout : pystr :=
  str "Ollama request timed out after " ++ str_of_int (timeout self) ++ str "s".
Definition msg_connect (e : exn) : pystr :=
  str "Failed to connect to Ollama at " ++ host self ++ str ": " ++ exn_str e.

(** The request body [query] builds; [system] is added when truthy. *)
Definition generate_payload (prompt : pystr) (system : option pystr) : pyval :=
  let payload := [ (str "model", PStr (model self));
                   (str "prompt", PStr prompt);
                   (str "stream", PBool false) ] in
  match system with
  | Some (c :: s) => PDict (dict_set (str "system") (PStr (c :: s)) payload)
  | _ => PDict payload
  end.

Definition query (prompt : pystr) (system : option pystr) : M pyval :=
  note_query prompt ;;
  try_except
    (let payload := generate_payload prompt system in
     log (LogQueryModel (model self)) ;;
     log (LogPrompt (firstn 100 prompt)) ;;
     response <- http (requests_post E (host self ++ str "/api/generate")
                                     payload (timeout self)) ;;
     if negb (status_code response =? 200)%Z then
       let error_msg := msg_status (status_code response) (text response) in
       log (LogClientError error_msg) ;;
       raise (mkExn Exception_ error_msg)
     else
       response_data <- reply_json response ;;
       answer <- lift (py_get response_data (str "response") (PStr [])) ;;
       chars <- lift (py_len answer) ;;
       log (LogReceived chars) ;;
       head <- lift (py_head 100 answer) ;;
       log (LogResponse head) ;;
       ret answer)
    (fun e =>
       if is_Timeout (exn_class e) then
         log (LogClientError msg_timeout) ;;
         raise (mkExn Exception_ msg_timeout)
       else if is_ConnectionError (exn_class e) then
         log (LogClientError (msg_connect e)) ;;
         raise (mkExn Exception_ (msg_connect e))
       else
         log (LogUnexpected e) ;;
         raise e).

End Methods.

End OllamaClient.

(** ** [app.py]

    The two POST handlers are modelled from the value [request.get_json()]
    returns onwards; the decorators around them (API key, rate limit) run
    before the handler body and are not part of it. *)

Module App.

Definition API_VERSION : pystr := str "0.1.0".

(** [jsonify(body), status] *)
Record response := mkResponse { status : Z; body : pyval }.

Definition error_body (msg : pystr) : pyval := PDict [(str "error", PStr msg)].

(** [f"device-{hashlib.sha256(mac.encode()).hexdigest()[:8]}"] *)
Definition sanitize_mac (mac : pyval) : outcome pystr :=
  match mac with
  | PStr m =>
      let? bytes := Codec.encode m in
      Ret (str "device-" ++ firstn 8 (Hashlib.hexdigest bytes))
  | _ => Raise (attribute_error mac "encode")
  end.

(** The loop of [suggest_vlan_grouping] over [devices], with its two
    accumulators. *)
Fixpoint sanitize_devices (devices : list pyval)
         (sanitized_devices : list pyval) (mac_to_sanitized : pydict)
  : outcome (list pyval * pydict) :=
  match devices with
  | [] => Ret (sanitized_devices, mac_to_sanitized)
  | device :: rest =>
      let? has_mac := py_in (str "mac") device in
      if negb has_mac then
        sanitize_devices rest sanitized_devices mac_to_sanitized
      else
        let? mac := py_getitem device (str "mac") in
        let? sanitized_mac := sanitize_mac mac in
        (* [mac] is a [str] here: it has been encoded *)
        let mac_to_sanitized :=
          match mac with
          | PStr m => dict_set m (PStr sanitized_mac) mac_to_sanitized
          | _ => mac_to_sanitized
          end in
        let? signal := py_get device (str "signal") (PInt 0) in
        let? hostname := py_get device (str "hostname") (PStr (str "unknown")) in
        sanitize_devices rest
          (sanitized_devices ++
             [PDict [ (str "device_id", PStr sanitized_mac);
                      (str "signal", signal);
                      (str "hostname", hostname) ]])
          mac_to_sanitized
  end.

Definition nl : pystr := [10].
Definition quote : pystr := [34].

(** The three literal parts of the prompt's f-string. *)
Definition prompt_intro : pystr :=
  nl ++
  str "You are a network assistant for a classroom environment. Analyze the following devices and suggest how to group them across SSIDs for optimal performance." ++
  nl ++ nl ++ str "Available SSIDs: ".

Definition prompt_devices : pystr :=
  nl ++ nl ++ str "Devices:" ++ nl.

Definition prompt_rules : pystr :=
  nl ++ nl ++ str "Consider:" ++ nl ++
  str "1. Signal strength (prefer devices with strong signals on primary SSID)" ++
  nl ++ str "2. Load balancing (distribute devices evenly)" ++ nl ++
  str "3. Device type (if hostname indicates purpose)" ++ nl ++ nl ++
  str "Respond with JSON only in this format:" ++ nl ++ str "{" ++ nl ++
  str "  " ++ quote ++ str "suggestion" ++ quote ++ str ": {" ++ nl ++
  str "    " ++ quote ++ str "lab-101" ++ quote ++ str ": [" ++ quote ++
  str "device-a1b2c3d4" ++ quote ++ str ", " ++ quote ++
  str "device-e5f6g7h8" ++ quote ++ str "]," ++ nl ++ str "    " ++ quote ++
  str "quiet-corner" ++ quote ++ str ": [" ++ quote ++
  str "device-11223344" ++ quote ++ str "]" ++ nl ++ str "  }," ++ nl ++
  str "  " ++ quote ++ str "confidence" ++ quote ++ str ": 0.87," ++ nl ++
  str "  " ++ quote ++ str "reasoning" ++ quote ++ str ": " ++ quote ++
  str "Strong signal devices to lab-101 for bandwidth-heavy tasks, weaker signals to quiet-corner." ++
  quote ++ nl ++ str "}" ++ nl.

Section Handlers.
Variable E : env.
Variable ollama : OllamaClient.t.

Definition build_prompt (ssids : pystr) (sanitized_devices : list pyval) : pystr :=
  prompt_intro ++ ssids ++ prompt_devices
  ++ Json.dumps_indent (float_repr E) 0 (PList sanitized_devices)
  ++ prompt_rules.

(** The suggestion substituted when the backend's text is not JSON. *)
Definition fallback_suggestion : pyval :=
  PDict [ (str "suggestion", PDict []);
          (str "confidence", PFloat float_0_0);
          (str "reasoning", PStr (str "Ollama returned invalid response format")) ].

Definition log_ai_decision (query : pystr) (suggestion human_decision notes : pyval)
  : M unit :=
  timestamp <- now E ;;
  let entry :=
    PDict [ (str "timestamp", PStr (timestamp ++ str "Z"));
            (str "query", PStr query);
            (str "ai_suggestion", suggestion);
            (str "human_decision", human_decision);
            (str "notes", notes) ] in
  match audit_fault E with
  | None =>
      append_audit entry ;;
      log (LogDecision human_decision)
  | Some e => log (LogDecisionFailed e)
  end.

(** [json.loads(ollama_response)] with its [except json.JSONDecodeError] *)
Definition parse_response (ollama_response : pyval) : M pyval :=
  match ollama_response with
  | PStr s =>
      match Json.loads s with
      | Some suggestion => ret suggestion
      | None =>
          log (LogNonJson s) ;;
          ret fallback_suggestion
      end
  | _ =>
      raise (type_error (str "the JSON object must be str, bytes or bytearray, not "
                             ++ type_name ollama_response))
  end.

(** [except Exception as e:] of the two POST handlers *)
Definition endpoint_except (endpoint : string) (e : exn) : M response :=
  log (LogEndpointError endpoint e) ;;
  ret (mkResponse 500 (error_body (exn_str e))).

(** The end of [suggest_vlan_grouping], from the backend's text to the
    response (lines 217-240). *)
Definition stamp_and_log (ssids devices : list pyval) (ollama_response : pyval)
  : M response :=
  suggestion <- parse_response ollama_response ;;
  suggestion <- lift (py_setitem suggestion (str "human_review_required")
                                 (PBool true)) ;;
  timestamp <- now E ;;
  suggestion <- lift (py_setitem suggestion (str "timestamp")
                                 (PStr (timestamp ++ str "Z"))) ;;
  log_ai_decision
    (str "Group " ++ str_of_int (Z.of_nat (List.length devices))
         ++ str " devices across "
         ++ str_of_int (Z.of_nat (List.length ssids)) ++ str " SSIDs")
    suggestion (PStr (str "pending"))
    (PStr (str "AI suggestion generated")) ;;
  ret (mkResponse 200 suggestion).

Definition missing_fields : response :=
  mkResponse 400 (error_body (str "Missing 'ssids' or 'devices' in request")).

Definition not_arrays : response :=
  mkResponse 400 (error_body (str "'ssids' and 'devices' must be arrays")).

(** The handler of [/vlan-group], from the value [request.get_json()]
    returned; a body for which that call itself fails is not a value of
    [data]. *)
Definition suggest_vlan_grouping (data : pyval) : M response :=
  try_except
    (if negb (truthy data) then ret missing_fields
     else
       has_ssids <- lift (py_in (str "ssids") data) ;;
       if negb has_ssids then ret missing_fields
       else
         has_devices <- lift (py_in (str "devices") data) ;;
         if negb has_devices then ret missing_fields
         else
           ssids <- lift (py_getitem data (str "ssids")) ;;
           devices <- lift (py_getitem data (str "devices")) ;;
           match ssids, devices with
           | PList ssids, PList devices =>
               sanitized <- lift (sanitize_devices devices [] []) ;;
               joined <- lift (py_join (str ", ") ssids) ;;
               let prompt := build_prompt joined (fst sanitized) in
               log (LogQuerying (Z.of_nat (List.length devices))) ;;
               ollama_response <- OllamaClient.query E ollama prompt None ;;
               stamp_and_log ssids devices ollama_response
           | _, _ =>
               (* not isinstance(ssids, list) or not isinstance(devices, list) *)
               ret not_arrays
           end)
    (endpoint_except "vlan-group").

Definition missing_feedback_fields : response :=
  mkResponse 400 (error_body (str "Missing 'timestamp' or 'decision'")).

Definition feedback_recorded : response :=
  mkResponse 200 (PDict [(str "status", PStr (str "feedback recorded"))]).

(** The handler of [/feedback], from the value [request.get_json()]
    returned. *)
Definition record_feedback (data : pyval) : M response :=
  try_except
    (if negb (truthy data) then ret missing_feedback_fields
     else
       has_timestamp <- lift (py_in (str "timestamp") data) ;;
       if negb has_timestamp then ret missing_feedback_fields
       else
         has_decision <- lift (py_in (str "decision") data) ;;
         if negb has_decision then ret missing_feedback_fields
         else
           timestamp <- lift (py_getitem data (str "timestamp")) ;;
           decision <- lift (py_getitem data (str "decision")) ;;
           notes <- lift (py_get data (str "notes") (PStr [])) ;;
           log (LogFeedback decision timestamp) ;;
           log_ai_decision (str "Feedback for " ++ fmt E timestamp)
                           (PDict []) decision notes ;;
           ret feedback_recorded)
    (endpoint_except "feedback").

Definition health : M response :=
  ollama_healthy <- OllamaClient.is_healthy E ollama ;;
  let unifi_healthy := true in
  let status := if ollama_healthy && unifi_healthy
                then str "healthy" else str "degraded" in
  ret (mkResponse 200
         (PDict [ (str "status", PStr status);
                  (str "ollama_reachable", PBool ollama_healthy);
                  (str "unifi_reachable", PBool unifi_healthy);
                  (str "api_version", PStr API_VERSION) ])).

Definition version : M response :=
  ollama_version <- OllamaClient.get_version E ollama ;;
  ret (mkResponse 200
         (PDict [ (str "api_version", PStr API_VERSION);
                  (str "ollama_version", ollama_version) ])).

End Handlers.

End App.

(** ** Specification-side definitions *)

(** A device entry as the data model has it: a JSON object whose [mac],
    when present, is a string with a UTF-8 encoding. *)
Definition well_formed_entry (device : pyval) : Prop :=
  exists fields, device = PDict fields /\
    forall mac, dict_get (str "mac") fields = Some mac ->
                exists m, mac = PStr m /\ Codec.encodable m.

(** The opaque identifier of a MAC string: ["device-"] and the first eight
    hexadecimal digits of the SHA-256 digest of its UTF-8 bytes. *)
Definition hashed_identifier (bytes : list N) : pystr :=
  str "device-" ++ firstn 8 (Hashlib.hexdigest bytes).

(** The observation the specification derives from one raw entry: none for
    an entry without [mac]; otherwise the hashed identifier, the signal
    (0 when missing) and the hostname (["unknown"] when missing). *)
Definition observation (device : pyval) : list pyval :=
  match device with
  | PDict fields =>
      match dict_get (str "mac") fields with
      | Some (PStr m) =>
          match Codec.utf8 m with
          | Some bytes =>
              [PDict [ (str "device_id", PStr (hashed_identifier bytes));
                       (str "signal",
                        match dict_get (str "signal") fields with
                        | Some v => v
                        | None => PInt 0
                        end);
                       (str "hostname",
                        match dict_get (str "hostname") fields with
                        | Some v => v
                        | None => PStr (str "unknown")
                        end) ]]
          | None => []
          end
      | _ => []
      end
  | _ => []
  end.

Definition sanitize_spec (devices : list pyval) : list pyval :=
  flat_map observation devices.

(** The failure kinds of the inference client, in the specification's
    words. *)
Inductive backend_failure :=
| BackendUnavailable
| BackendTimeout
| BackendError (status : Z) (body : pystr).

(** What went wrong on the wire: a timeout, a connection failure, or a
    reply with a status other than 200. *)
Definition transport_failure (r : http_result) : option backend_failure :=
  match r with
  | Failed k _ =>
      if is_Timeout (Requests k) then Some BackendTimeout
      else if is_ConnectionError (Requests k) then Some BackendUnavailable
      else None
  | Replied x =>
      if (status_code x =? 200)%Z then None
      else Some (BackendError (status_code x) (text x))
  end.

(** How [query] signals each kind: a bare [Exception] whose text has one of
    three shapes. *)
Definition signals (self : OllamaClient.t) (e : exn) (f : backend_failure) : Prop :=
  match f with
  | BackendTimeout => e = mkExn Exception_ (OllamaClient.msg_timeout self)
  | BackendUnavailable =>
      exists cause, e = mkExn Exception_ (OllamaClient.msg_connect self cause)
  | BackendError status body =>
      e = mkExn Exception_ (OllamaClient.msg_status status body)
  end.

(** The version probe succeeded. *)
Definition probe_ok (r : http_result) : bool :=
  match r with
  | Replied x => (status_code x =? 200)%Z
  | Failed _ _ => false
  end.

(** The version a successful probe reports; ["unknown"] otherwise. *)
Definition reported_version (r : http_result) : pyval :=
  match r with
  | Replied x =>
      if (status_code x =? 200)%Z then
        match json x with
        | Some (PDict d) =>
            match dict_get (str "version") d with
            | Some v => v
            | None => PStr (str "unknown")
            end
        | _ => PStr (str "unknown")
        end
      else PStr (str "unknown")
  | Failed _ _ => PStr (str "unknown")
  end.

(** A payload that passes validation: an object whose [ssids] and
    [devices] are both lists. *)
Definition accepted (data : pyval) (ssids devices : list pyval) : Prop :=
  exists d, data = PDict d /\
            dict_get (str "ssids") d = Some (PList ssids) /\
            dict_get (str "devices") d = Some (PList devices).

(** A payload that validation refuses: falsy, or an object in which
    [ssids] or [devices] is missing or is not a list. *)
Definition refused (data : pyval) : Prop :=
  truthy data = false \/
  exists d, data = PDict d /\
            match dict_get (str "ssids") d, dict_get (str "devices") d with
            | Some (PList _), Some (PList _) => False
            | _, _ => True
            end.

(** The prompt composed from an accepted payload. *)
Definition composes (E : env) (ssids devices : list pyval) (prompt : pystr) : Prop :=
  exists sanitized table joined,
    App.sanitize_devices devices [] [] = Ret (sanitized, table) /\
    py_join (str ", ") ssids = Ret joined /\
    prompt = App.build_prompt E joined sanitized.

(** The request [query] puts on the wire for a prompt. *)
Definition wire (E : env) (ollama : OllamaClient.t) (prompt : pystr) : http_result :=
  requests_post E (OllamaClient.host ollama ++ str "/api/generate")
    (OllamaClient.generate_payload ollama prompt None)
    (OllamaClient.timeout ollama).

(** The backend answers the prompt with the generated text [answer]. *)
Definition backend_answers (E : env) (ollama : OllamaClient.t)
           (prompt answer : pystr) : Prop :=
  exists x fields,
    wire E ollama prompt = Replied x /\
    status_code x = 200%Z /\
    json x = Some (PDict fields) /\
    dict_get (str "response") fields = Some (PStr answer).

(** The suggestion stamped for output. *)
Definition stamped (payload : pydict) (isoformat : pystr) : pydict :=
  dict_set (str "timestamp") (PStr (isoformat ++ str "Z"))
    (dict_set (str "human_review_required") (PBool true) payload).

(** What the sanitization loop takes from one entry: nothing, one record
    in which the MAC is replaced by its hashed identifier, or an error. *)
Definition device_view (device : pyval) : outcome (list pyval) :=
  let? has_mac := py_in (str "mac") device in
  if negb has_mac then Ret []
  else
    let? mac := py_getitem device (str "mac") in
    let? sanitized_mac := App.sanitize_mac mac in
    let? signal := py_get device (str "signal") (PInt 0) in
    let? hostname := py_get device (str "hostname") (PStr (str "unknown")) in
    Ret [PDict [ (str "device_id", PStr sanitized_mac);
                 (str "signal", signal);
                 (str "hostname", hostname) ]].

(** The records of a list of views, up to the first error. *)
Fixpoint collect (views : list (outcome (list pyval))) (acc : list pyval)
  : outcome (list pyval) :=
  match views with
  | [] => Ret acc
  | Ret records :: rest => collect rest (acc ++ records)
  | Raise e :: _ => Raise e
  end.

(** The sanitized list of a run of the loop, without the MAC table. *)
Definition sanitized_of (o : outcome (list pyval * pydict)) : outcome (list pyval) :=
  match o with
  | Ret (sanitized, _) => Ret sanitized
  | Raise e => Raise e
  end.


(** ** Scenarios: concrete surroundings for closed statements *)

Module Scenario.

Definition ollama : OllamaClient.t :=
  OllamaClient.mk (str "http://ollama:11434") OllamaClient.default_model
                  OllamaClient.default_timeout.

Definition fresh : world := mkWorld 0 [] [] [].

Definition clock (n : nat) : pystr := str "2025-01-19T14:23:45.678901".

(** Stands for [repr]; no scenario below formats a float, a list or a
    dict. *)
Definition repr (v : pyval) : pystr := str "<" ++ type_name v ++ str ">".

Definition env_of (post : http_result) (fault : option exn) : env :=
  mkEnv repr clock
        (fun _ _ => Replied (mkReply 200 [] (Some (PDict [(str "version", PStr (str "0.1.20"))]))))
        (fun _ _ _ => post) fault.

(** The backend generates [answer]. *)
Definition generates (answer : pystr) : http_result :=
  Replied (mkReply 200 []
             (Some (PDict [ (str "model", PStr OllamaClient.default_model);
                            (str "response", PStr answer);
                            (str "done", PBool true) ]))).

Definition answer_text : pystr :=
  str "{" ++ App.quote ++ str "suggestion" ++ App.quote ++ str ":{" ++
  App.quote ++ str "lab-101" ++ App.quote ++ str ":[" ++ App.quote ++
  str "device-a1b2c3d4" ++ App.quote ++ str "]," ++ App.quote ++
  str "quiet-corner" ++ App.quote ++ str ":[" ++ App.quote ++
  str "device-11223344" ++ App.quote ++ str "]}," ++ App.quote ++
  str "confidence" ++ App.quote ++ str ":0.87," ++ App.quote ++
  str "reasoning" ++ App.quote ++ str ":" ++ App.quote ++
  str "Strong signal devices to lab-101." ++ App.quote ++ str "," ++
  App.quote ++ str "human_review_required" ++ App.quote ++ str ":false}".

Definition device (mac : string) (signal : Z) (hostname : string) : pyval :=
  PDict [ (str "mac", PStr (str mac)); (str "signal", PInt signal);
          (str "hostname", PStr (str hostname)) ].

Definition payload (ssids : list string) (devices : list pyval) : pyval :=
  PDict [ (str "ssids", PList (map (fun s => PStr (str s)) ssids));
          (str "devices", PList devices) ].

(** The request of the specification's scenario. *)
Definition request : pyval :=
  payload ["lab-101"; "quiet-corner"]%string
          [ device "AA:BB:CC:DD:EE:FF" (-45) "device-1";
            device "11:22:33:44:55:66" (-72) "device-2" ].


(** Two MAC addresses whose SHA-256 digests start with the same eight
    hexadecimal digits, [091d4f36]. *)
Definition request_a : pyval :=
  payload ["lab-101"]%string [ device "78:4F:DA:74:A8:B2" (-45) "ipad-08" ].
Definition request_b : pyval :=
  payload ["lab-101"]%string [ device "0E:89:F2:96:69:F1" (-45) "ipad-08" ].

Definition feedback : pydict :=
  [ (str "timestamp", PStr (str "2025-01-19T14:23:45Z"));
    (str "decision", PStr (str "approved"));
    (str "notes", PStr (str "ok")) ].

Definition disk_full : exn :=
  mkExn OSError (str "[Errno 28] No space left on device").

(** A backend that generates [answer_text], and a disk that takes the
    audit record. *)
Definition healthy : env := env_of (generates answer_text) None.

(** The handler on a payload, from the fresh world. *)
Definition run (E : env) (data : pyval) : outcome App.response * world :=
  App.suggest_vlan_grouping E ollama data fresh.

Definition status_of (r : outcome App.response * world) : option Z :=
  match fst r with
  | Ret resp => Some (App.status resp)
  | Raise _ => None
  end.

Definition field_of (k : string) (r : outcome App.response * world) : option pyval :=
  match fst r with
  | Ret (App.mkResponse _ (PDict d)) => dict_get (str k) d
  | _ => None
  end.

(** Does the one prompt sent to the backend contain [needle]? *)
Definition prompt_has (needle : string) (r : outcome App.response * world)
  : option bool :=
  match queries (snd r) with
  | [prompt] => Some (occurs_in (str needle) prompt)
  | _ => None
  end.

End Scenario.

(** The first component of a returned pair, if any. *)
Definition fmap_fst {A B} (o : outcome (A * B)) : option A :=
  match o with Ret (a, _) => Some a | Raise _ => None end.

Definition is_lower_hex (c : N) : bool :=
  ((48 <=? c) && (c <=? 57)) || ((97 <=? c) && (c <=? 102)).

(** ** The rest of the two modules

    [require_api_key] of [app.py] and the two best-effort methods of
    [OllamaClient], [list_models] and [pull_model].  Their log lines are
    kept in a list of their own, beside the world of the handlers. *)

Inductive more_line :=
| LogAuthDisabled                       (* API_KEY not set in environment *)
| LogInvalidKey (remote : pystr)        (* Invalid API key from {remote} *)
| LogModels (models : list pyval)       (* Available Ollama models: {models} *)
| LogListFailed (e : exn)               (* Failed to list Ollama models: {e} *)
| LogPulling (model : pystr)            (* Pulling Ollama model '{model}'... *)
| LogPullFailed (model : pystr) (e : exn).

Definition level_of_more (l : more_line) : level :=
  match l with
  | LogAuthDisabled | LogInvalidKey _ => WARNING
  | LogModels _ | LogPulling _ => INFO
  | LogListFailed _ | LogPullFailed _ _ => ERROR
  end.

Record xworld := mkX { inner : world; more_logged : list more_line }.

Definition XM (A : Type) : Type := xworld -> outcome A * xworld.

Definition xret {A} (a : A) : XM A := fun x => (Ret a, x).
Definition xbind {A B} (c : XM A) (k : A -> XM B) : XM B :=
  fun x => match c x with
           | (Ret a, x') => k a x'
           | (Raise e, x') => (Raise e, x')
           end.
Definition xtry {A} (c : XM A) (h : exn -> XM A) : XM A :=
  fun x => match c x with
           | (Ret a, x') => (Ret a, x')
           | (Raise e, x') => h e x'
           end.
Definition xlift {A} (o : outcome A) : XM A := fun x => (o, x).
Definition xlog (l : more_line) : XM unit :=
  fun x => (Ret tt, mkX (inner x) (more_logged x ++ [l])).

(** A computation of the handlers' monad, run on the inner world. *)
Definition within {A} (c : M A) : XM A :=
  fun x => match c (inner x) with
           | (o, w') => (o, mkX w' (more_logged x))
           end.

Declare Scope xpy_scope.
Delimit Scope xpy_scope with xpy.
Notation "x <- c ;; k" := (xbind c (fun x => k))
  (at level 61, c at next level, right associativity) : xpy_scope.
Notation "c ;; k" := (xbind c (fun _ => k))
  (at level 61, right associativity) : xpy_scope.

(** [for item in v]: the items a [for] or a comprehension visits. *)
Definition py_iter (v : pyval) : outcome (list pyval) :=
  match v with
  | PList l => Ret l
  | PDict d => Ret (map (fun kv => PStr (fst kv)) d)
  | PStr s => Ret (map (fun c => PStr [c]) s)
  | _ => Raise (type_error (str "'" ++ type_name v
                                ++ str "' object is not iterable"))
  end.

Module Diagnostics.

Section Methods.
Variable E : env.
Variable self : OllamaClient.t.
Local Open Scope xpy_scope.

(** [[model["name"] for model in items]] *)
Fixpoint names (items : list pyval) : outcome (list pyval) :=
  match items with
  | [] => Ret []
  | model :: rest =>
      let? name := py_getitem model (str "name") in
      let? others := names rest in
      Ret (name :: others)
  end.

Definition list_models : XM (list pyval) :=
  returned <-
    xtry
      (response <- within (http (requests_get E
                                   (OllamaClient.host self ++ str "/api/tags") 10)) ;;
       if (status_code response =? 200)%Z then
         data <- within (reply_json response) ;;
         listed <- xlift (py_get data (str "models") (PList [])) ;;
         items <- xlift (py_iter listed) ;;
         models <- xlift (names items) ;;
         xlog (LogModels models) ;;
         xret (Some models)
       else xret None)
      (fun e => xlog (LogListFailed e) ;; xret None) ;;
  match returned with
  | Some models => xret models
  | None => xret []
  end.

Definition pull_model (model : pystr) : XM bool :=
  xtry
    (xlog (LogPulling model) ;;
     response <- within (http (requests_post E
                                 (OllamaClient.host self ++ str "/api/pull")
                                 (PDict [(str "name", PStr model)]) 300)) ;;
     xret (status_code response =? 200)%Z)
    (fun e => xlog (LogPullFailed model e) ;; xret false).

End Methods.

End Diagnostics.

Module Access.

(** What [require_api_key] reads of the request: the [X-API-Key] header,
    if there is one, and the remote address. *)
Record request := mkRequest { x_api_key : option pystr; remote_addr : pystr }.

Definition unauthorized : App.response :=
  App.mkResponse 401 (App.error_body (str "Invalid or missing API key")).

Section Decorator.
Variable API_KEY : pystr.
Local Open Scope xpy_scope.

(** [wrapper], for a wrapped handler [func]. *)
Definition require_api_key (req : request) (func : M App.response)
  : XM App.response :=
  let provided_key := match x_api_key req with Some k => k | None => [] end in
  match API_KEY with
  | [] =>
      xlog LogAuthDisabled ;;
      within func
  | _ =>
      if negb (pystr_eqb provided_key API_KEY) then
        xlog (LogInvalidKey (remote_addr req)) ;;
        xret unauthorized
      else within func
  end.

End Decorator.

End Access.

(** ** More specification-side definitions *)

(** The outcome of the validation steps of [suggest_vlan_grouping]: an
    early response, the two lists, or the exception of an operation that
    does not apply to the body. *)
Definition validated (data : pyval)
  : outcome (App.response + list pyval * list pyval) :=
  if negb (truthy data) then Ret (inl App.missing_fields)
  else
    let? has_ssids := py_in (str "ssids") data in
    if negb has_ssids then Ret (inl App.missing_fields)
    else
      let? has_devices := py_in (str "devices") data in
      if negb has_devices then Ret (inl App.missing_fields)
      else
        let? ssids := py_getitem data (str "ssids") in
        let? devices := py_getitem data (str "devices") in
        match ssids, devices with
        | PList ssids, PList devices => Ret (inr (ssids, devices))
        | _, _ => Ret (inl App.not_arrays)
        end.

(** The prompt of two validated lists, or the exception of sanitization
    or of [join]. *)
Definition prompt_of (E : env) (ssids devices : list pyval) : outcome pystr :=
  let? sanitized := App.sanitize_devices devices [] [] in
  let? joined := py_join (str ", ") ssids in
  Ret (App.build_prompt E joined (fst sanitized)).

(** The fields of the suggestion taken from what [query] returned, before
    stamping. *)
Definition suggestion_of (ollama_response : pyval) : outcome pydict :=
  match ollama_response with
  | PStr s =>
      match Json.loads s with
      | Some (PDict d) => Ret d
      | Some v =>
          let? _ := py_setitem v (str "human_review_required") (PBool true) in
          Ret []
      | None =>
          match App.fallback_suggestion with
          | PDict d => Ret d
          | _ => Ret []
          end
      end
  | _ =>
      Raise (type_error (str "the JSON object must be str, bytes or bytearray, not "
                             ++ type_name ollama_response))
  end.

(** The audit record of a suggestion. *)
Definition suggestion_record (E : env) (tick : nat) (ssids devices : list pyval)
           (suggestion : pyval) : pyval :=
  PDict [ (str "timestamp", PStr (utcnow E tick ++ str "Z"));
          (str "query",
           PStr (str "Group " ++ str_of_int (Z.of_nat (List.length devices))
                     ++ str " devices across "
                     ++ str_of_int (Z.of_nat (List.length ssids)) ++ str " SSIDs"));
          (str "ai_suggestion", suggestion);
          (str "human_decision", PStr (str "pending"));
          (str "notes", PStr (str "AI suggestion generated")) ].

(** The same surroundings with another fate for the audit write. *)
Definition with_fault (E : env) (fault : option exn) : env :=
  mkEnv (py_repr E) (utcnow E) (requests_get E) (requests_post E) fault.

(** The models [list_models] lists for a reply: the names of all entries,
    or nothing. *)
Definition listed (r : http_result) : list pyval :=
  match r with
  | Replied x =>
      if (status_code x =? 200)%Z then
        match json x with
        | Some data =>
            match (let? models := py_get data (str "models") (PList []) in
                   let? items := py_iter models in
                   Diagnostics.names items) with
            | Ret names => names
            | Raise _ => []
            end
        | None => []
        end
      else []
  | Failed _ _ => []
  end.

(** A sanitized record: exactly the three fields, the first one an
    identifier of the fixed shape. *)
Definition is_observation (record : pyval) : Prop :=
  exists bytes signal hostname,
    record = PDict [ (str "device_id", PStr (hashed_identifier bytes));
                     (str "signal", signal);
                     (str "hostname", hostname) ].

(** The [device_id] of a sanitized record. *)
Definition device_id_of (record : pyval) : option pystr :=
  match record with
  | PDict d =>
      match dict_get (str "device_id") d with
      | Some (PStr id) => Some id
      | _ => None
      end
  | _ => None
  end.

Definition status_in (resp : App.response) (codes : list Z) : Prop :=
  In (App.status resp) codes.

(** [p] stands somewhere in [s]. *)
Definition shown_in (p s : pystr) : Prop := exists a b, s = a ++ p ++ b.

(** The header does not carry the configured key: it is missing, or holds
    something else. *)
Definition x_api_key_differs (API_KEY : pystr) (req : Access.request) : Prop :=
  match Access.x_api_key req with
  | Some k => k <> API_KEY
  | None => True
  end.

(** A character of a MAC address in colon notation: a hexadecimal digit
    or the colon. *)
Definition mac_char (c : N) : bool :=
  ((48 <=? c) && (c <=? 57)) || ((65 <=? c) && (c <=? 70))
  || ((97 <=? c) && (c <=? 102)) || (c =? 58).

(** An address in colon notation, read loosely: two characters at least,
    all of them hexadecimal digits or colons, one of them a colon.
    ["AA:BB:CC:DD:EE:FF"] is one. *)
Definition colon_notation (m : pystr) : bool :=
  forallb mac_char m && existsb (N.eqb 58) m && Nat.leb 2 (List.length m).


(** The text begins, or ends, with a character no address has. *)
Definition starts_plain (t : pystr) : bool :=
  match t with
  | c :: _ => negb (mac_char c)
  | [] => false
  end.
Definition ends_plain (t : pystr) : bool := starts_plain (rev t).

(** The text the prompt shows for a field of a sanitized record. *)
Definition field_text (E : env) (v : pyval) : pystr :=
  Json.dumps_indent (float_repr E) 2 v.

(** What the loop copies from an entry into its record as it is: the
    signal and the hostname of an entry that has a [mac]. *)
Definition echoed_fields (device : pyval) : list pyval :=
  match py_in (str "mac") device with
  | Ret true =>
      match py_get device (str "signal") (PInt 0),
            py_get device (str "hostname") (PStr (str "unknown")) with
      | Ret signal, Ret hostname => [signal; hostname]
      | _, _ => []
      end
  | _ => []
  end.

(** The request itself repeats [m] in what the prompt shows as given: in
    an SSID name, or in the text of the signal or of the hostname of an
    entry with a [mac]. *)
Definition repeats (E : env) (ssids devices : list pyval) (m : pystr) : bool :=
  existsb (fun v => match v with PStr name => occurs_in m name | _ => false end)
          ssids
  || existsb (fun device =>
                existsb (fun v => occurs_in m (field_text E v))
                        (echoed_fields device))
             devices.

(* ================================================================== *)
(** * Properties *)

(** ** The runtime model on known vectors *)

Example sha256_constants :
  firstn 2 Hashlib.K = [0x428a2f98; 0x71374491] /\
  nth 63 Hashlib.K 0 = 0xc67178f2 /\
  List.length Hashlib.K = 64%nat /\
  Hashlib.ha Hashlib.H0 = 0x6a09e667 /\
  Hashlib.hh Hashlib.H0 = 0x5be0cd19.
Proof. vm_compute. repeat split. Qed.

Example sha256_empty :
  Hashlib.hexdigest [] =
  str "e3b0c44298fc1c149afbf4c8996fb92427ae41e4649b934ca495991b7852b855".
Proof. vm_compute. reflexivity. Qed.

Example sha256_abc :
  Hashlib.hexdigest [97; 98; 99] =
  str "ba7816bf8f01cfea414140de5dae2223b00361a396177a9cb410ff61f20015ad".
Proof. vm_compute. reflexivity. Qed.

Example json_loads_vectors :
  Json.loads (str "42") = Some (PInt 42) /\
  Json.loads (str " [1, 2.50e-3, -0, true, null] ")
  = Some (PList [PInt 1; PFloat (FDec false 250 (-5)); PInt 0; PBool true; PNone]) /\
  Json.loads (str "{" ++ App.quote ++ str "a" ++ App.quote ++ str ": 1, "
                  ++ App.quote ++ str "b" ++ App.quote ++ str ": [], "
                  ++ App.quote ++ str "a" ++ App.quote ++ str ": 2}")
  = Some (PDict [(str "a", PInt 2); (str "b", PList [])]) /\
  Json.loads (App.quote ++ str "\ud83d\ude00\ud800\n" ++ App.quote)
  = Some (PStr [0x1F600; 0xD800; 10]) /\
  Json.loads (str "01") = None /\
  Json.loads (str "[1,]") = None /\
  Json.loads (str "{x: 1}") = None /\
  Json.loads (str "Sure! Here is the grouping you asked for.") = None /\
  Json.loads [] = None.
Proof. vm_compute. repeat split. Qed.

(** ** Text *)

Lemma pystr_eqb_refl s : pystr_eqb s s = true.
Proof.
  induction s as [|c s IH]; simpl; [reflexivity|].
  now rewrite N.eqb_refl, IH.
Qed.

Lemma pystr_eqb_eq s t : pystr_eqb s t = true <-> s = t.
Proof.
  split; [|intros ->; apply pystr_eqb_refl].
  revert t; induction s as [|c s IH]; intros [|d t]; simpl; try easy.
  intros H. apply andb_prop in H as [H1 H2].
  apply N.eqb_eq in H1. apply IH in H2. now subst.
Qed.

(** ** [json.loads] terminates within its fuel *)

Module JsonFacts.
Import Json.

Ltac break_in H :=
  match type of H with
  | context [match ?x with _ => _ end] =>
      match x with
      | context [match _ with _ => _ end] => fail 1
      | _ => destruct x eqn:?
      end
  end.

Lemma skip_ws_le s : (List.length (skip_ws s) <= List.length s)%nat.
Proof.
  induction s as [|c s IH]; simpl; [lia|].
  destruct (is_ws c); simpl; lia.
Qed.

Lemma scan_string_lt n :
  forall s acc k r, (List.length s <= n)%nat ->
    scan_string s acc = POk k r -> (List.length r < List.length s)%nat.
Proof.
  induction n as [|n IH]; intros s acc k r Hn H;
    destruct s as [|c s1]; simpl in Hn; try discriminate; [lia|].
  cbn [scan_string] in H.
  repeat (break_in H; try discriminate; subst; cbn [List.length] in *);
    try (injection H as <- <-; simpl; lia);
    try (apply IH in H; cbn [List.length] in *; lia).
Qed.

Lemma span_digits_le s :
  forall ds r, span_digits s = (ds, r) -> (List.length r <= List.length s)%nat.
Proof.
  induction s as [|c s IH]; simpl; intros ds r H.
  - injection H as <- <-. simpl. lia.
  - destruct (is_digit c).
    + destruct (span_digits s) as [ds' r'] eqn:Hs. injection H as <- <-.
      specialize (IH _ _ eq_refl). lia.
    + injection H as <- <-. simpl. lia.
Qed.

Lemma scan_int_lt s ip r :
  scan_int s = Some (ip, r) -> (List.length r < List.length s)%nat.
Proof.
  unfold scan_int. destruct s as [|c s]; [discriminate|].
  destruct (c =? 48); [intros [= <- <-]; simpl; lia|].
  destruct (is_digit c); [|discriminate].
  destruct (span_digits s) as [ds r'] eqn:Hs. intros [= <- <-].
  apply span_digits_le in Hs. simpl. lia.
Qed.

Lemma scan_frac_lt s fp r :
  scan_frac s = Some (fp, r) -> (List.length r < List.length s)%nat.
Proof.
  unfold scan_frac. destruct s as [|c s]; [discriminate|].
  destruct (c =? 46); [|discriminate].
  destruct (span_digits s) as [[|d ds] r'] eqn:Hs; [discriminate|].
  intros [= <- <-]. apply span_digits_le in Hs. simpl. lia.
Qed.

Lemma scan_exp_lt s e r :
  scan_exp s = Some (e, r) -> (List.length r < List.length s)%nat.
Proof.
  unfold scan_exp. destruct s as [|c s]; [discriminate|].
  destruct ((c =? 101) || (c =? 69)); [|discriminate].
  destruct s as [|d t].
  - simpl. discriminate.
  - destruct (d =? 45); [|destruct (d =? 43)];
      match goal with
      | |- context [span_digits ?x] =>
          destruct (span_digits x) as [[|d' ds] r'] eqn:Hs; [discriminate|];
          intros [= <- <-]; apply span_digits_le in Hs; simpl in *; lia
      end.
Qed.

Lemma scan_number_lt s v r :
  scan_number s = POk v r -> (List.length r < List.length s)%nat.
Proof.
  unfold scan_number.
  set (p := match s with
            | c :: t => if c =? 45 then (true, t) else (false, s)
            | [] => (false, s)
            end).
  assert (Hp : (List.length (snd p) <= List.length s)%nat).
  { subst p. destruct s as [|c t]; simpl; [lia|].
    destruct (c =? 45); simpl; lia. }
  destruct p as [neg s0]. simpl in Hp.
  destruct (scan_int s0) as [[ip r1]|] eqn:Hi; [|discriminate].
  apply scan_int_lt in Hi.
  destruct (scan_frac r1) as [[fp r2]|] eqn:Hf.
  - apply scan_frac_lt in Hf.
    destruct (scan_exp r2) as [[e r3]|] eqn:He.
    + apply scan_exp_lt in He. intros [= <- <-]. lia.
    + intros [= <- <-]. lia.
  - destruct (scan_exp r1) as [[e r3]|] eqn:He.
    + apply scan_exp_lt in He. intros [= <- <-]. lia.
    + intros [= <- <-]. lia.
Qed.

Lemma starts_with_length p s :
  starts_with p s = true -> (List.length p <= List.length s)%nat.
Proof.
  revert s. induction p as [|c p IH]; intros [|d s]; simpl; try lia; try discriminate.
  intros H. apply andb_prop in H as [_ H]. apply IH in H. lia.
Qed.

Lemma scan_literal_lt lit v s v' r :
  str lit <> [] ->
  scan_literal lit v s = POk v' r -> (List.length r < List.length s)%nat.
Proof.
  unfold scan_literal. intros Hl.
  destruct (starts_with (str lit) s) eqn:Hs; [|discriminate].
  intros [= <- <-]. apply starts_with_length in Hs.
  rewrite length_skipn. destruct (str lit); [easy|]. simpl in *. lia.
Qed.

Lemma parse_consumes fuel :
  (forall s v r, parse_value fuel s = POk v r ->
                 (List.length r < List.length s)%nat) /\
  (forall acc s v r, parse_elems fuel acc s = POk v r ->
                     (List.length r < List.length s)%nat) /\
  (forall acc s v r, parse_members fuel acc s = POk v r ->
                     (List.length r < List.length s)%nat).
Proof.
  induction fuel as [|f (IHv & IHe & IHm)]; [repeat split; discriminate|].
  split; [|split].
  - intros s v r H. cbn [parse_value] in H.
    destruct s as [|c s1]; [discriminate|].
    destruct (c =? 34).
    { destruct (scan_string s1 []) as [k r'| |] eqn:Hs; try discriminate.
      injection H as <- <-.
      apply (scan_string_lt _ _ _ _ _ (le_n _)) in Hs. simpl. lia. }
    destruct (c =? 123).
    { pose proof (skip_ws_le s1) as Hw.
      destruct (skip_ws s1) as [|d r'] eqn:Hk; [discriminate|].
      destruct (d =? 125).
      - injection H as <- <-. simpl in *. lia.
      - apply IHm in H. simpl in *. lia. }
    destruct (c =? 91).
    { pose proof (skip_ws_le s1) as Hw.
      destruct (skip_ws s1) as [|d r'] eqn:Hk; [discriminate|].
      destruct (d =? 93).
      - injection H as <- <-. simpl in *. lia.
      - apply IHe in H. simpl in *. lia. }
    destruct (c =? 110); [apply scan_literal_lt in H; [exact H|discriminate]|].
    destruct (c =? 116); [apply scan_literal_lt in H; [exact H|discriminate]|].
    destruct (c =? 102); [apply scan_literal_lt in H; [exact H|discriminate]|].
    destruct (scan_number (c :: s1)) as [v' r'| |] eqn:Hn.
    { injection H as <- <-. now apply scan_number_lt in Hn. }
    all: destruct (c =? 78); [apply scan_literal_lt in H; [exact H|discriminate]|];
         destruct (c =? 73); [apply scan_literal_lt in H; [exact H|discriminate]|];
         destruct (c =? 45); [apply scan_literal_lt in H; [exact H|discriminate]|];
         discriminate.
  - intros acc s v r H. cbn [parse_elems] in H.
    destruct (parse_value f s) as [v' r'| |] eqn:Hv; try discriminate.
    apply IHv in Hv. pose proof (skip_ws_le r') as Hw.
    destruct (skip_ws r') as [|d r''] eqn:Hk; [discriminate|].
    destruct (d =? 44).
    + apply IHe in H. pose proof (skip_ws_le r''). simpl in *. lia.
    + destruct (d =? 93); [|discriminate].
      injection H as <- <-. simpl in *. lia.
  - intros acc s v r H. cbn [parse_members] in H.
    destruct s as [|q s1]; [discriminate|].
    destruct (q =? 34); [|discriminate].
    destruct (scan_string s1 []) as [k r0| |] eqn:Hs; try discriminate.
    apply (scan_string_lt _ _ _ _ _ (le_n _)) in Hs.
    pose proof (skip_ws_le r0) as Hw0.
    destruct (skip_ws r0) as [|c r1] eqn:Hk0; [discriminate|].
    destruct (c =? 58); [|discriminate].
    destruct (parse_value f (skip_ws r1)) as [v' r2| |] eqn:Hv; try discriminate.
    apply IHv in Hv. pose proof (skip_ws_le r1) as Hw1.
    pose proof (skip_ws_le r2) as Hw2.
    destruct (skip_ws r2) as [|d r3] eqn:Hk2; [discriminate|].
    destruct (d =? 44).
    + apply IHm in H. pose proof (skip_ws_le r3). simpl in *. lia.
    + destruct (d =? 125); [|discriminate].
      injection H as <- <-. simpl in *. lia.
Qed.

Lemma scan_string_no_fuel s : forall acc, scan_string s acc <> PFuel.
Proof.
  assert (H : forall n s acc, (List.length s <= n)%nat -> scan_string s acc <> PFuel).
  { induction n as [|n IH]; intros s0 acc Hn; destruct s0 as [|c s1];
      simpl in Hn; try discriminate; [lia|].
    cbn [scan_string].
    repeat match goal with
           | |- context [match ?x with _ => _ end] =>
               match x with
               | context [match _ with _ => _ end] => fail 1
               | _ => destruct x eqn:?
               end; try discriminate; subst; cbn [List.length] in *
           end;
      try (apply IH; cbn [List.length] in *; lia). }
  intros acc. now apply (H (List.length s)).
Qed.

Lemma scan_literal_no_fuel lit v s : scan_literal lit v s <> PFuel.
Proof. unfold scan_literal. now destruct (starts_with (str lit) s). Qed.

Lemma scan_number_no_fuel s : scan_number s <> PFuel.
Proof.
  unfold scan_number.
  destruct (match s with
            | c :: t => if c =? 45 then (true, t) else (false, s)
            | [] => (false, s)
            end) as [neg s0].
  destruct (scan_int s0) as [[ip r1]|]; [|discriminate].
  destruct (scan_frac r1) as [[fp r2]|];
    [destruct (scan_exp r2) as [[e r3]|]|destruct (scan_exp r1) as [[e r3]|]];
    discriminate.
Qed.

Lemma parse_fuel fuel :
  (forall s, (2 * List.length s < fuel)%nat -> parse_value fuel s <> PFuel) /\
  (forall acc s, (2 * List.length s + 1 < fuel)%nat ->
                 parse_elems fuel acc s <> PFuel) /\
  (forall acc s, (2 * List.length s + 1 < fuel)%nat ->
                 parse_members fuel acc s <> PFuel).
Proof.
  induction fuel as [|f (IHv & IHe & IHm)]; [repeat split; intros; lia|].
  split; [|split].
  - intros s Hf. cbn [parse_value].
    destruct s as [|c s1]; [discriminate|]. simpl in Hf.
    destruct (c =? 34).
    { pose proof (scan_string_no_fuel s1 []).
      now destruct (scan_string s1 []). }
    destruct (c =? 123).
    { pose proof (skip_ws_le s1) as Hw.
      destruct (skip_ws s1) as [|d r'] eqn:Hk; [discriminate|].
      destruct (d =? 125); [discriminate|].
      apply IHm. simpl in *. lia. }
    destruct (c =? 91).
    { pose proof (skip_ws_le s1) as Hw.
      destruct (skip_ws s1) as [|d r'] eqn:Hk; [discriminate|].
      destruct (d =? 93); [discriminate|].
      apply IHe. simpl in *. lia. }
    destruct (c =? 110); [apply scan_literal_no_fuel|].
    destruct (c =? 116); [apply scan_literal_no_fuel|].
    destruct (c =? 102); [apply scan_literal_no_fuel|].
    destruct (scan_number (c :: s1)); [discriminate|..];
      (destruct (c =? 78); [apply scan_literal_no_fuel|];
       destruct (c =? 73); [apply scan_literal_no_fuel|];
       destruct (c =? 45); [apply scan_literal_no_fuel|discriminate]).
  - intros acc s Hf. cbn [parse_elems].
    assert (Hv : parse_value f s <> PFuel) by (apply IHv; lia).
    destruct (parse_value f s) as [v' r'| |] eqn:Hp; [|discriminate|contradiction].
    apply (proj1 (parse_consumes f)) in Hp.
    pose proof (skip_ws_le r') as Hw.
    destruct (skip_ws r') as [|d r''] eqn:Hk; [discriminate|].
    destruct (d =? 44).
    + apply IHe. pose proof (skip_ws_le r''). simpl in *. lia.
    + destruct (d =? 93); discriminate.
  - intros acc s Hf. cbn [parse_members].
    destruct s as [|q s1]; [discriminate|].
    destruct (q =? 34); [|discriminate].
    pose proof (scan_string_no_fuel s1 []) as Hn.
    destruct (scan_string s1 []) as [k r0| |] eqn:Hs;
      [|discriminate|contradiction].
    apply (scan_string_lt _ _ _ _ _ (le_n _)) in Hs.
    pose proof (skip_ws_le r0) as Hw0.
    destruct (skip_ws r0) as [|c r1] eqn:Hk0; [discriminate|].
    destruct (c =? 58); [|discriminate].
    pose proof (skip_ws_le r1) as Hw1.
    assert (Hv : parse_value f (skip_ws r1) <> PFuel).
    { apply IHv. simpl in *. lia. }
    destruct (parse_value f (skip_ws r1)) as [v' r2| |] eqn:Hp;
      [|discriminate|contradiction].
    apply (proj1 (parse_consumes f)) in Hp.
    pose proof (skip_ws_le r2) as Hw2.
    destruct (skip_ws r2) as [|d r3] eqn:Hk2; [discriminate|].
    destruct (d =? 44).
    + apply IHm. pose proof (skip_ws_le r3). simpl in *. lia.
    + destruct (d =? 125); discriminate.
Qed.

(** [loads] never runs out of fuel: its [None] is a decoding error. *)
Lemma loads_fuel s :
  parse_value (2 * List.length (skip_ws s) + 1) (skip_ws s) <> PFuel.
Proof. apply (proj1 (parse_fuel _)). lia. Qed.

End JsonFacts.

(** ** [str.encode] and [sanitize_mac] *)

Lemma encode_cp_scalar c :
  c < 0x110000 -> Codec.is_surrogate c = false ->
  exists b, Codec.encode_cp c = Some b.
Proof.
  intros Hc Hs. unfold Codec.encode_cp. rewrite Hs.
  destruct (c <? 0x80); [eauto|].
  destruct (c <? 0x800); [eauto|].
  destruct (c <? 0x10000); [eauto|].
  apply N.ltb_lt in Hc. rewrite Hc. eauto.
Qed.

Lemma utf8_encodable m :
  Codec.encodable m -> exists bytes, Codec.utf8 m = Some bytes.
Proof.
  induction 1 as [|c m [Hc Hs] _ [bs IH]]; simpl; [eauto|].
  destruct (encode_cp_scalar c Hc Hs) as [b ->].
  rewrite IH. eauto.
Qed.

Lemma utf8_defined_encodable m bytes :
  Codec.utf8 m = Some bytes -> Codec.encodable m.
Proof.
  revert bytes; induction m as [|c m IH]; intros bytes; simpl.
  - constructor.
  - destruct (Codec.encode_cp c) eqn:Hc; [|discriminate].
    destruct (Codec.utf8 m) eqn:Hm; [|discriminate].
    intros _. constructor; [|eapply IH; reflexivity].
    unfold Codec.encode_cp in Hc.
    destruct (c <? 0x80) eqn:H1.
    { apply N.ltb_lt in H1. split; [lia|].
      unfold Codec.is_surrogate. apply andb_false_intro1, N.leb_gt. lia. }
    destruct (c <? 0x800) eqn:H2.
    { apply N.ltb_lt in H2. split; [lia|].
      unfold Codec.is_surrogate. apply andb_false_intro1, N.leb_gt. lia. }
    destruct (Codec.is_surrogate c) eqn:H3; [discriminate|].
    destruct (c <? 0x10000) eqn:H4.
    { apply N.ltb_lt in H4. split; [lia|reflexivity]. }
    destruct (c <? 0x110000) eqn:H5; [|discriminate].
    apply N.ltb_lt in H5. split; [lia|reflexivity].
Qed.

Lemma hexdigit_lower n : n < 16 -> is_lower_hex (Hashlib.hexdigit n) = true.
Proof.
  intros Hn. unfold Hashlib.hexdigit, is_lower_hex.
  destruct (n <? 10) eqn:H.
  - apply N.ltb_lt in H. apply orb_true_intro; left.
    apply andb_true_intro; split; apply N.leb_le; lia.
  - apply N.ltb_ge in H. apply orb_true_intro; right.
    apply andb_true_intro; split; apply N.leb_le; lia.
Qed.

Lemma land_0xff_lt x : N.land x 0xff < 256.
Proof.
  change 0xff with (N.ones 8). rewrite N.land_ones.
  apply N.mod_lt. discriminate.
Qed.

Lemma hex_byte_lower b :
  b < 256 -> Forall (fun c => is_lower_hex c = true) (Hashlib.hex_byte b).
Proof.
  intros Hb. unfold Hashlib.hex_byte.
  repeat constructor; apply hexdigit_lower.
  - rewrite N.shiftr_div_pow2. change (2 ^ 4) with 16.
    apply N.Div0.div_lt_upper_bound. lia.
  - change 0xf with (N.ones 4). rewrite N.land_ones.
    apply N.mod_lt. discriminate.
Qed.

(** The identifier is ["device-"] followed by eight lowercase hexadecimal
    digits, whatever the bytes hashed. *)
Lemma hashed_identifier_shape bytes :
  List.length (hashed_identifier bytes) = 15%nat /\
  firstn 7 (hashed_identifier bytes) = str "device-" /\
  Forall (fun c => is_lower_hex c = true) (skipn 7 (hashed_identifier bytes)).
Proof.
  unfold hashed_identifier, Hashlib.hexdigest, Hashlib.digest.
  remember (Hashlib.final_state bytes) as s eqn:Hs. clear Hs.
  unfold Hashlib.word_bytes. cbn [app flat_map].
  repeat split.
  unfold Hashlib.hex_byte. cbn [app firstn str map list_ascii_of_string skipn].
  repeat constructor;
    match goal with
    | |- is_lower_hex (Hashlib.hexdigit (N.shiftr _ 4)) = true =>
        apply hexdigit_lower; rewrite N.shiftr_div_pow2;
        change (2 ^ 4) with 16;
        apply N.Div0.div_lt_upper_bound; apply land_0xff_lt
    | |- is_lower_hex (Hashlib.hexdigit (N.land _ 0xf)) = true =>
        apply hexdigit_lower; change 0xf with (N.ones 4);
        rewrite N.land_ones; apply N.mod_lt; discriminate
    end.
Qed.

(** C10, as amended.  For every string [m] that has a UTF-8 encoding (no
    lone surrogate code point), [sanitize_mac m] returns ["device-"]
    followed by the first eight characters of the hexadecimal SHA-256 digest
    of that encoding; the identifier has length 15 and its last eight
    characters are lowercase hexadecimal digits. *)
Theorem sanitize_mac_encodable m :
  Codec.encodable m ->
  exists bytes,
    Codec.utf8 m = Some bytes /\
    App.sanitize_mac (PStr m)
    = Ret (str "device-" ++ firstn 8 (Hashlib.hexdigest bytes)) /\
    List.length (str "device-" ++ firstn 8 (Hashlib.hexdigest bytes)) = 15%nat /\
    Forall (fun c => is_lower_hex c = true) (firstn 8 (Hashlib.hexdigest bytes)).
Proof.
  intros Hm. destruct (utf8_encodable m Hm) as [bytes Hb].
  exists bytes. split; [exact Hb|].
  destruct (hashed_identifier_shape bytes) as (Hlen & _ & Hhex).
  split; [|split; [exact Hlen | exact Hhex]].
  unfold App.sanitize_mac, Codec.encode. now rewrite Hb.
Qed.

Lemma sanitize_mac_encodable_witness :
  Codec.encodable (str "AA:BB:CC:DD:EE:FF") /\
  exists bytes,
    Codec.utf8 (str "AA:BB:CC:DD:EE:FF") = Some bytes /\
    App.sanitize_mac (PStr (str "AA:BB:CC:DD:EE:FF"))
    = Ret (str "device-" ++ firstn 8 (Hashlib.hexdigest bytes)) /\
    List.length (str "device-" ++ firstn 8 (Hashlib.hexdigest bytes)) = 15%nat /\
    Forall (fun c => is_lower_hex c = true) (firstn 8 (Hashlib.hexdigest bytes)).
Proof.
  assert (H : Codec.encodable (str "AA:BB:CC:DD:EE:FF")).
  { unfold Codec.encodable, str. simpl.
    repeat (constructor; [split; reflexivity|]). constructor. }
  split; [exact H|].
  apply (sanitize_mac_encodable (str "AA:BB:CC:DD:EE:FF")). exact H.
Defined.

(** C10 as stated fails: the one-character string holding the lone
    surrogate U+D800 is a [str], and [sanitize_mac] raises
    [UnicodeEncodeError] on it instead of returning an identifier. *)
Lemma sanitize_mac_not_total :
  App.sanitize_mac (PStr [0xD800]) = Raise Codec.encode_error /\
  ~ (forall m, exists id,
        App.sanitize_mac (PStr m) = Ret id /\ List.length id = 15%nat).
Proof.
  split; [reflexivity|].
  intros H. destruct (H [0xD800]) as (id & Hid & _). discriminate Hid.
Qed.

(** [sanitize_mac] raises exactly on the strings without an encoding. *)
Lemma sanitize_mac_raises_iff m :
  (exists e, App.sanitize_mac (PStr m) = Raise e) <-> ~ Codec.encodable m.
Proof.
  unfold App.sanitize_mac, Codec.encode. split.
  - intros [e He] Hm. destruct (utf8_encodable m Hm) as [b Hb].
    rewrite Hb in He. discriminate.
  - intros Hm. destruct (Codec.utf8 m) eqn:Hb.
    + exfalso. eauto using utf8_defined_encodable.
    + eauto.
Qed.

Example sanitize_mac_scenario :
  App.sanitize_mac (PStr (str "AA:BB:CC:DD:EE:FF")) = Ret (str "device-261900fb") /\
  App.sanitize_mac (PStr (str "11:22:33:44:55:66")) = Ret (str "device-f9687f1c").
Proof. split; vm_compute; reflexivity. Qed.

(** ** Sanitization of the device list *)

Lemma sanitize_devices_acc devices :
  Forall well_formed_entry devices ->
  forall acc table, exists table',
    App.sanitize_devices devices acc table
    = Ret (acc ++ sanitize_spec devices, table').
Proof.
  induction 1 as [|device rest (fields & -> & Hmac) _ IH]; intros acc table.
  - exists table. simpl. now rewrite app_nil_r.
  - unfold sanitize_spec. cbn [flat_map observation App.sanitize_devices py_in].
    unfold dict_has.
    destruct (dict_get (str "mac") fields) as [mac|] eqn:Hget.
    + destruct (Hmac mac eq_refl) as (m & -> & Hm).
      destruct (utf8_encodable m Hm) as [bytes Hb].
      cbn [negb py_getitem py_get]. rewrite Hget, Hb.
      cbn [App.sanitize_mac]. unfold Codec.encode. rewrite Hb.
      edestruct IH as [table' ->]. exists table'.
      unfold hashed_identifier, sanitize_spec. now rewrite <- app_assoc.
    + cbn [negb]. apply IH.
Qed.

(** C7, as amended.  Over device entries as the data model has them (JSON
    objects whose [mac], when present, is an encodable string), the
    sanitization loop never raises; it skips every entry without [mac] and
    turns every other entry into the record with the hashed identifier, the
    signal (0 when missing) and the hostname (["unknown"] when missing), in
    order. *)
Theorem sanitize_devices_spec devices :
  Forall well_formed_entry devices ->
  exists table,
    App.sanitize_devices devices [] [] = Ret (sanitize_spec devices, table).
Proof.
  intros H. destruct (sanitize_devices_acc devices H [] []) as [table Ht].
  exists table. exact Ht.
Qed.

Lemma sanitize_devices_spec_witness :
  let devices :=
    [ PDict [ (str "mac", PStr (str "AA:BB:CC:DD:EE:FF"));
              (str "signal", PInt (-45)); (str "hostname", PStr (str "device-1")) ];
      PDict [ (str "signal", PInt (-72)) ];
      PDict [ (str "mac", PStr (str "11:22:33:44:55:66")) ] ] in
  Forall well_formed_entry devices /\
  exists table,
    App.sanitize_devices devices [] [] = Ret (sanitize_spec devices, table).
Proof.
  intros devices.
  assert (H : Forall well_formed_entry devices).
  { repeat constructor; eexists; (split; [reflexivity|]); intros mac Hmac;
      vm_compute in Hmac; try discriminate;
      injection Hmac as <-; eexists; (split; [reflexivity|]);
      unfold Codec.encodable, str; simpl;
      repeat (constructor; [split; reflexivity|]); constructor. }
  split; [exact H|].
  apply (sanitize_devices_spec devices). exact H.
Defined.

Example sanitize_devices_scenario :
  fmap_fst (App.sanitize_devices
     [ PDict [ (str "mac", PStr (str "AA:BB:CC:DD:EE:FF"));
               (str "signal", PInt (-45)); (str "hostname", PStr (str "device-1")) ];
       PDict [ (str "signal", PInt (-72)) ];
       PDict [ (str "mac", PStr (str "11:22:33:44:55:66")) ] ] [] [])
  = Some
     [ PDict [ (str "device_id", PStr (str "device-261900fb"));
               (str "signal", PInt (-45)); (str "hostname", PStr (str "device-1")) ];
       PDict [ (str "device_id", PStr (str "device-f9687f1c"));
               (str "signal", PInt 0); (str "hostname", PStr (str "unknown")) ] ].
Proof. vm_compute. reflexivity. Qed.

(** The loop reads an entry through [device_view] only: its result is
    the records of the views, in order, or the first error. *)
Lemma sanitize_devices_views devices :
  forall acc table,
    sanitized_of (App.sanitize_devices devices acc table)
    = collect (map device_view devices) acc.
Proof.
  induction devices as [|device rest IH]; intros acc table; [reflexivity|].
  cbn [App.sanitize_devices map collect]. unfold device_view.
  destruct (py_in (str "mac") device) as [[|]|e]; cbn [negb];
    [ | rewrite IH; cbn [collect]; now rewrite app_nil_r | reflexivity ].
  destruct (py_getitem device (str "mac")) as [mac|e]; [|reflexivity].
  destruct (App.sanitize_mac mac) as [id|e]; [|reflexivity].
  destruct (py_get device (str "signal") (PInt 0)) as [signal|e]; [|reflexivity].
  destruct (py_get device (str "hostname") (PStr (str "unknown")))
    as [hostname|e]; [|reflexivity].
  rewrite IH. reflexivity.
Qed.

(** ** Running the monad *)

Ltac run :=
  unfold try_except, bind, ret, raise, lift, log, now, append_audit,
         note_query, http;
  cbn.

Ltac done_world :=
  solve [ repeat eexists ].

(** ** The inference client *)

(** C8.  [is_healthy] and [get_version] always return: [is_healthy] gives
    [true] exactly when the version probe is answered with status 200, and
    [get_version] gives the version that answer reports, or ["unknown"]
    when the probe raises, is answered with another status, or answers
    with something that is not a JSON object holding a version.  Neither
    touches the audit trail or the backend queries. *)
Theorem probes_never_raise E self w :
  let probe := requests_get E (OllamaClient.host self ++ str "/api/version") 5 in
  (exists w', OllamaClient.is_healthy E self w = (Ret (probe_ok probe), w')
              /\ audit w' = audit w /\ queries w' = queries w) /\
  (exists w', OllamaClient.get_version E self w = (Ret (reported_version probe), w')
              /\ audit w' = audit w /\ queries w' = queries w).
Proof.
  intros probe. unfold OllamaClient.is_healthy, OllamaClient.get_version.
  fold probe. unfold reported_version, probe_ok.
  destruct probe as [x|k msg]; run.
  - split; [done_world|].
    destruct (status_code x =? 200)%Z; run; [|done_world].
    unfold reply_json. destruct (json x) as [v|]; run; [|done_world].
    destruct v as [ |b|z|f|s|l|d]; run; done_world.
  - split; done_world.
Qed.

(** *** The three messages of [query] can be told apart *)

Lemma str_inj s t : str s = str t -> s = t.
Proof.
  unfold str. revert t.
  induction s as [|a s IH]; intros [|b t]; simpl; try easy.
  intros H. injection H as Hab Hst.
  apply (f_equal ascii_of_N) in Hab. rewrite !ascii_N_embedding in Hab.
  f_equal; auto.
Qed.

Lemma str_of_int_inj z z' : str_of_int z = str_of_int z' -> z = z'.
Proof.
  unfold str_of_int. intros H. apply str_inj in H.
  apply DecimalZ.to_int_inj.
  assert (Hn : forall x, Z.to_int x <> Decimal.Pos Decimal.Nil
                         /\ Z.to_int x <> Decimal.Neg Decimal.Nil).
  { intros [|p|p]; simpl; split; try discriminate;
      intros [= Hp]; now apply DecimalPos.Unsigned.to_uint_nonnil in Hp. }
  destruct (Hn z) as [H1 H2], (Hn z') as [H1' H2'].
  apply (f_equal NilZero.int_of_string) in H.
  rewrite !NilZero.isi in H by assumption. now injection H.
Qed.

Lemma uint_no_colon d : ~ In 58 (str (NilEmpty.string_of_uint d)).
Proof.
  unfold str. induction d; simpl; [tauto|..]; intros [H|H]; try discriminate; auto.
Qed.

Lemma str_of_int_no_colon z : ~ In 58 (str_of_int z).
Proof.
  unfold str_of_int.
  destruct (Z.to_int z) as [d|d]; simpl.
  - unfold NilZero.string_of_uint. destruct d; try apply uint_no_colon.
    unfold str; simpl. intros [H|[]]. discriminate.
  - unfold NilZero.string_of_uint. unfold str. simpl.
    intros [H|H]; [discriminate|].
    destruct d; try (now apply (uint_no_colon _ H)).
    simpl in H. destruct H as [H|[]]. discriminate.
Qed.

Lemma split_at_first (c : N) l1 l2 r1 r2 :
  ~ In c l1 -> ~ In c l2 ->
  l1 ++ c :: r1 = l2 ++ c :: r2 -> l1 = l2 /\ r1 = r2.
Proof.
  revert l2. induction l1 as [|a l1 IH]; intros [|b l2] H1 H2 H; simpl in *.
  - now injection H.
  - injection H as -> _. exfalso. apply H2. now left.
  - injection H as -> _. exfalso. apply H1. now left.
  - injection H as -> H.
    destruct (IH l2) as [-> ->]; auto.
Qed.

Lemma msg_status_inj st b st' b' :
  OllamaClient.msg_status st b = OllamaClient.msg_status st' b' ->
  st = st' /\ b = b'.
Proof.
  unfold OllamaClient.msg_status. intros H.
  apply app_inv_head in H.
  change (str ": ") with [58; 32] in H. cbn [app] in H.
  apply split_at_first in H; try apply str_of_int_no_colon.
  destruct H as [H1 H2]. apply str_of_int_inj in H1.
  injection H2 as H2. now subst.
Qed.

Lemma msg_timeout_not_connect self cause :
  OllamaClient.msg_timeout self <> OllamaClient.msg_connect self cause.
Proof.
  unfold OllamaClient.msg_timeout, OllamaClient.msg_connect.
  change (str "Ollama request timed out after ")
    with (79 :: skipn 1 (str "Ollama request timed out after ")).
  change (str "Failed to connect to Ollama at ")
    with (70 :: skipn 1 (str "Failed to connect to Ollama at ")).
  cbn [app]. intros H. discriminate H.
Qed.

Lemma msg_status_not_timeout self st b :
  OllamaClient.msg_status st b <> OllamaClient.msg_timeout self.
Proof.
  unfold OllamaClient.msg_timeout, OllamaClient.msg_status.
  change (str "Ollama request timed out after ")
    with (str "Ollama " ++ 114 :: skipn 8 (str "Ollama request timed out after ")).
  change (str "Ollama API returned ")
    with (str "Ollama " ++ 65 :: skipn 8 (str "Ollama API returned ")).
  rewrite <- !app_assoc. intros H. apply app_inv_head in H.
  cbn [app] in H. discriminate H.
Qed.

Lemma msg_status_not_connect self st b cause :
  OllamaClient.msg_status st b <> OllamaClient.msg_connect self cause.
Proof.
  unfold OllamaClient.msg_connect, OllamaClient.msg_status.
  change (str "Ollama API returned ")
    with (79 :: skipn 1 (str "Ollama API returned ")).
  change (str "Failed to connect to Ollama at ")
    with (70 :: skipn 1 (str "Failed to connect to Ollama at ")).
  cbn [app]. intros H. discriminate H.
Qed.

(** An exception signals at most one failure kind. *)
Lemma signals_functional self e f f' :
  signals self e f -> signals self e f' -> f = f'.
Proof.
  destruct f as [| |st b], f' as [| |st' b']; cbn [signals];
    try reflexivity; intros H H'; [exfalso .. | ].
  - destruct H as [c ->]. injection H' as H'.
    now apply (msg_timeout_not_connect self c).
  - destruct H as [c ->]. injection H' as H'.
    now apply (msg_status_not_connect self st' b' c).
  - destruct H' as [c ->]. injection H as H.
    now apply (msg_timeout_not_connect self c).
  - rewrite H in H'. injection H' as H'. symmetry in H'.
    now apply (msg_status_not_timeout self st' b').
  - destruct H' as [c ->]. injection H as H.
    now apply (msg_status_not_connect self st b c).
  - rewrite H' in H. injection H as H. symmetry in H.
    now apply (msg_status_not_timeout self st b).
  - rewrite H in H'. apply (f_equal exn_str) in H'. cbn [exn_str] in H'.
    apply msg_status_inj in H'. destruct H' as [-> ->]. reflexivity.
Qed.

Lemma signals_class self e f : signals self e f -> exn_class e = Exception_.
Proof. destruct f; simpl; [intros [c ->]|intros ->..]; reflexivity. Qed.

(** Whatever [query] raises either signals the failure seen on the wire or
    is an exception of another class than the bare [Exception]. *)
Lemma query_raises E self prompt system w e w' :
  OllamaClient.query E self prompt system w = (Raise e, w') ->
  (exists f,
      transport_failure
        (requests_post E (OllamaClient.host self ++ str "/api/generate")
           (OllamaClient.generate_payload self prompt system)
           (OllamaClient.timeout self)) = Some f /\ signals self e f)
  \/ exn_class e <> Exception_.
Proof.
  unfold OllamaClient.query.
  destruct (requests_post E _ _ _) as [x|k msg]; run.
  - destruct (status_code x =? 200)%Z; run.
    + unfold reply_json. destruct (json x) as [v|]; run.
      * destruct v as [ |b|z|f|s|l|d]; run;
          try (intros [= <- <-]; right; discriminate).
        destruct (match dict_get (str "response") d with
                  | Some x0 => x0 | None => PStr [] end)
          as [ |b|z|f|s|l|d']; run;
          intros [= <- <-] || intros [=]; right; discriminate.
      * intros [= <- <-]; right; discriminate.
    + intros [= <- <-]. left. eexists. split; reflexivity.
  - destruct k; run; intros [= <- <-];
      first [ left; eexists; split; [reflexivity|]; simpl; eauto; fail
            | right; discriminate ].
Qed.

(** C6.  [query] fails with the timeout message exactly when the request
    timed out, with the connection message exactly when the connection
    failed, and with the status message -- which carries the upstream
    status code and body -- exactly when the backend answered with a status
    other than 200; all three are raised as a bare [Exception], and the
    exception raised determines the failure kind (and, for a status
    failure, the code and the body). *)
Theorem query_failure_kinds E self prompt system w :
  let wire :=
    requests_post E (OllamaClient.host self ++ str "/api/generate")
      (OllamaClient.generate_payload self prompt system)
      (OllamaClient.timeout self) in
  (forall f, transport_failure wire = Some f ->
     exists e w',
       OllamaClient.query E self prompt system w = (Raise e, w') /\
       signals self e f) /\
  (forall e w' f,
     OllamaClient.query E self prompt system w = (Raise e, w') ->
     signals self e f -> transport_failure wire = Some f) /\
  (forall e f f', signals self e f -> signals self e f' -> f = f').
Proof.
  intros wire. split; [|split].
  - intros f Hf. unfold OllamaClient.query. fold wire.
    destruct wire as [x|k msg]; simpl in Hf; run.
    + destruct (status_code x =? 200)%Z; [discriminate|].
      injection Hf as <-. run. repeat eexists.
    + destruct k; simpl in Hf; try discriminate; injection Hf as <-; run;
        repeat eexists.
  - intros e w' f Hq Hs.
    destruct (query_raises _ _ _ _ _ _ _ Hq) as [(f0 & Hw & Hs0)|Hc].
    + fold wire in Hw. rewrite Hw. f_equal.
      exact (signals_functional self e f0 f Hs0 Hs).
    + exfalso. apply Hc. exact (signals_class self e f Hs).
  - apply signals_functional.
Qed.

Lemma query_failure_kinds_witness :
  let E := Scenario.env_of (Failed ConnectTimeout (str "connect timed out")) None in
  transport_failure (wire E Scenario.ollama (str "hello")) = Some BackendTimeout /\
  exists e w',
    OllamaClient.query E Scenario.ollama (str "hello") None Scenario.fresh
    = (Raise e, w') /\
    signals Scenario.ollama e BackendTimeout.
Proof.
  intros E. split; [reflexivity|].
  apply (proj1 (query_failure_kinds E Scenario.ollama (str "hello") None
                                    Scenario.fresh)).
  reflexivity.
Defined.

(** ** The feedback endpoint *)

Lemma dict_get_nonempty k d v : dict_get k d = Some v -> d <> [].
Proof. now destruct d. Qed.



(** The specification's feedback scenario, on a healthy and on a full
    disk. *)
Example feedback_scenario :
  let E := Scenario.env_of (Failed ConnectionError []) None in
  let E' := Scenario.env_of (Failed ConnectionError []) (Some Scenario.disk_full) in
  let run E d := App.record_feedback E (PDict d) Scenario.fresh in
  fst (run E Scenario.feedback) = Ret App.feedback_recorded /\
  List.length (audit (snd (run E Scenario.feedback))) = 1%nat /\
  fst (run E' Scenario.feedback) = Ret App.feedback_recorded /\
  audit (snd (run E' Scenario.feedback)) = [] /\
  fst (run E [(str "decision", PStr (str "approved"))])
  = Ret App.missing_feedback_fields.
Proof. vm_compute. repeat split. Qed.

(** ** The grouping endpoint *)

Arguments OllamaClient.query : simpl never.
Arguments Json.loads : simpl never.
Arguments App.build_prompt : simpl never.
Arguments App.sanitize_devices : simpl never.
Arguments py_join : simpl never.
Arguments str_of_int : simpl never.

Lemma vlan_accepted E ollama data ssids devices sanitized table joined w :
  accepted data ssids devices ->
  App.sanitize_devices devices [] [] = Ret (sanitized, table) ->
  py_join (str ", ") ssids = Ret joined ->
  App.suggest_vlan_grouping E ollama data w
  = try_except
      (bind (log (LogQuerying (Z.of_nat (List.length devices))))
         (fun _ =>
            bind (OllamaClient.query E ollama
                    (App.build_prompt E joined sanitized) None)
                 (App.stamp_and_log E ssids devices)))
      (App.endpoint_except "vlan-group") w.
Proof.
  intros (d & -> & Hs & Hd) Hsan Hjoin.
  unfold App.suggest_vlan_grouping.
  assert (Ht : truthy (PDict d) = true).
  { destruct d; [discriminate|reflexivity]. }
  rewrite Ht. run. unfold dict_has. rewrite Hs, Hd. cbn.
  rewrite Hsan, Hjoin. cbn. reflexivity.
Qed.


Lemma query_on_answer E ollama prompt answer :
  backend_answers E ollama prompt answer ->
  exists lines, forall w,
    OllamaClient.query E ollama prompt None w
    = (Ret (PStr answer), mkWorld (ticks w) (audit w) (queries w ++ [prompt])
                                  (logged w ++ lines)).
Proof.
  intros (x & fields & Hw & Hst & Hj & Hr). unfold wire in Hw.
  unfold OllamaClient.query. rewrite Hw. eexists. intros w. run.
  rewrite Hst. run. unfold reply_json. rewrite Hj. run. rewrite Hr. run.
  rewrite <- !app_assoc. reflexivity.
Qed.



(** [d[k] = v] reads back [v] at [k] and leaves every other key alone. *)
Lemma dict_get_set_same k v d : dict_get k (dict_set k v d) = Some v.
Proof.
  induction d as [|[k' v'] d IH]; simpl.
  - now rewrite pystr_eqb_refl.
  - destruct (pystr_eqb k k') eqn:Hk; simpl.
    + now rewrite pystr_eqb_refl.
    + now rewrite Hk.
Qed.

Lemma dict_get_set_other k k' v d :
  k' <> k -> dict_get k' (dict_set k v d) = dict_get k' d.
Proof.
  intros Hne. induction d as [|[k0 v0] d IH]; simpl.
  - destruct (pystr_eqb k' k) eqn:Hk; [|reflexivity].
    apply pystr_eqb_eq in Hk. contradiction.
  - destruct (pystr_eqb k k0) eqn:Hk; simpl.
    + apply pystr_eqb_eq in Hk. subst k0.
      destruct (pystr_eqb k' k) eqn:Hk'; [|reflexivity].
      apply pystr_eqb_eq in Hk'. contradiction.
    + destruct (pystr_eqb k' k0); [reflexivity|exact IH].
Qed.

(** The keys of a dict keep their order under [d[k] = v]; a new key goes
    last. *)
Lemma dict_set_keys k v d :
  map fst (dict_set k v d)
  = if dict_has k d then map fst d else map fst d ++ [k].
Proof.
  unfold dict_has. induction d as [|[k' v'] d IH]; simpl; [reflexivity|].
  destruct (pystr_eqb k k') eqn:Hk; simpl.
  - apply pystr_eqb_eq in Hk. now subst.
  - rewrite IH. now destruct (dict_get k d).
Qed.

(** What the handler does once the backend has answered. *)
Lemma vlan_answered E ollama data ssids devices prompt answer w :
  accepted data ssids devices ->
  composes E ssids devices prompt ->
  backend_answers E ollama prompt answer ->
  exists lines,
    App.suggest_vlan_grouping E ollama data w
    = try_except (App.stamp_and_log E ssids devices (PStr answer))
        (App.endpoint_except "vlan-group")
        (mkWorld (ticks w) (audit w) (queries w ++ [prompt]) (logged w ++ lines)).
Proof.
  intros Ha (sanitized & table & joined & Hsan & Hjoin & ->) Hb.
  destruct (query_on_answer E ollama _ answer Hb) as [lines Hq].
  rewrite (vlan_accepted _ _ _ _ _ _ _ _ _ Ha Hsan Hjoin).
  exists (LogQuerying (Z.of_nat (List.length devices)) :: lines).
  unfold try_except at 1. unfold bind at 1 2. unfold log at 1.
  rewrite Hq. cbn [ticks audit queries logged].
  rewrite <- app_assoc. reflexivity.
Qed.

(** C4.  When the backend's text parses as a JSON object, the handler
    answers 200 with that object stamped: [human_review_required] is [true]
    whatever the backend put there, [timestamp] is the clock reading
    followed by ["Z"], and every other field -- [suggestion], [confidence]
    and [reasoning] among them -- is the parsed one. *)
Theorem parsed_suggestion_is_stamped
        E ollama data ssids devices prompt answer payload w :
  accepted data ssids devices ->
  composes E ssids devices prompt ->
  backend_answers E ollama prompt answer ->
  Json.loads answer = Some (PDict payload) ->
  let out := stamped payload (utcnow E (ticks w)) in
  (exists w', App.suggest_vlan_grouping E ollama data w
              = (Ret (App.mkResponse 200 (PDict out)), w')) /\
  dict_get (str "suggestion") out = dict_get (str "suggestion") payload /\
  dict_get (str "confidence") out = dict_get (str "confidence") payload /\
  dict_get (str "reasoning") out = dict_get (str "reasoning") payload /\
  dict_get (str "human_review_required") out = Some (PBool true) /\
  dict_get (str "timestamp") out = Some (PStr (utcnow E (ticks w) ++ str "Z")) /\
  (forall k, k <> str "human_review_required" -> k <> str "timestamp" ->
             dict_get k out = dict_get k payload).
Proof.
  intros Ha Hc Hb Hp out.
  assert (Hother : forall k, k <> str "human_review_required" ->
                             k <> str "timestamp" ->
                             dict_get k out = dict_get k payload).
  { intros k H1 H2. unfold out, stamped.
    now rewrite !dict_get_set_other by assumption. }
  split; [|repeat split].
  - destruct (vlan_answered E ollama data ssids devices prompt answer w Ha Hc Hb)
      as [lines ->].
    unfold App.stamp_and_log, App.parse_response, App.log_ai_decision.
    rewrite Hp. run.
    destruct (audit_fault E); run; eexists; reflexivity.
  - apply Hother; discriminate.
  - apply Hother; discriminate.
  - apply Hother; discriminate.
  - unfold out, stamped.
    rewrite dict_get_set_other by discriminate. apply dict_get_set_same.
  - apply dict_get_set_same.
  - exact Hother.
Qed.

(** The part of C2 the code delivers: when the backend's text is not JSON
    at all, the handler answers 200 with the stamped fallback -- no groups,
    confidence [0.0], a non-empty reasoning. *)
Lemma malformed_json_falls_back E ollama data ssids devices prompt answer w :
  accepted data ssids devices ->
  composes E ssids devices prompt ->
  backend_answers E ollama prompt answer ->
  Json.loads answer = None ->
  exists out w',
    App.suggest_vlan_grouping E ollama data w
    = (Ret (App.mkResponse 200 (PDict out)), w') /\
    dict_get (str "suggestion") out = Some (PDict []) /\
    dict_get (str "confidence") out = Some (PFloat float_0_0) /\
    dict_get (str "reasoning") out
    = Some (PStr (str "Ollama returned invalid response format")) /\
    dict_get (str "human_review_required") out = Some (PBool true).
Proof.
  intros Ha Hc Hb Hp.
  destruct (vlan_answered E ollama data ssids devices prompt answer w Ha Hc Hb)
    as [lines ->].
  unfold App.stamp_and_log, App.parse_response, App.log_ai_decision,
    App.fallback_suggestion.
  rewrite Hp. run.
  destruct (audit_fault E); run; eexists _, _;
    (split; [reflexivity|]); repeat split.
Qed.

(** Where C2 fails: a text that is JSON but not an object gets past
    [json.loads], and the assignment of [human_review_required] raises;
    the handler answers 500. *)
Lemma nonobject_json_is_500 E ollama data ssids devices prompt answer v w :
  accepted data ssids devices ->
  composes E ssids devices prompt ->
  backend_answers E ollama prompt answer ->
  Json.loads answer = Some v ->
  (forall d, v <> PDict d) ->
  exists detail w',
    App.suggest_vlan_grouping E ollama data w
    = (Ret (App.mkResponse 500 (App.error_body detail)), w') /\
    audit w' = audit w.
Proof.
  intros Ha Hc Hb Hp Hv.
  destruct (vlan_answered E ollama data ssids devices prompt answer w Ha Hc Hb)
    as [lines ->].
  unfold App.stamp_and_log, App.parse_response, App.endpoint_except.
  rewrite Hp. run.
  destruct v as [ |b|z|f|s|l|d]; run;
    try (eexists _, _; split; reflexivity).
  now destruct (Hv d).
Qed.

Ltac by_computation := vm_compute; reflexivity.

Ltac scenario_accepted :=
  eexists; split; [reflexivity|split; by_computation].

Ltac scenario_composes :=
  eexists _, _, _;
  split; [by_computation|split; [by_computation|reflexivity]].

Ltac scenario_answers :=
  eexists _, _; split; [reflexivity|split; [reflexivity|split; reflexivity]].

(** C2 on the code: the backend generates the text [42] for the request of
    the scenario.  The text is JSON, so no fallback is substituted; the
    handler answers 500 with the text of the [TypeError]. *)
Theorem bare_number_answer_is_500 :
  let E := Scenario.env_of (Scenario.generates (str "42")) None in
  Json.loads (str "42") = Some (PInt 42) /\
  fst (App.suggest_vlan_grouping E Scenario.ollama Scenario.request Scenario.fresh)
  = Ret (App.mkResponse 500
           (App.error_body (str "'int' object does not support item assignment"))).
Proof. vm_compute. split; reflexivity. Qed.


Lemma parsed_suggestion_is_stamped_witness :
  let E := Scenario.env_of (Scenario.generates Scenario.answer_text) None in
  exists payload,
    Json.loads Scenario.answer_text = Some (PDict payload) /\
    dict_get (str "human_review_required") payload = Some (PBool false) /\
    let out := stamped payload (utcnow E 0) in
    (exists w', App.suggest_vlan_grouping E Scenario.ollama Scenario.request
                  Scenario.fresh
                = (Ret (App.mkResponse 200 (PDict out)), w')) /\
    dict_get (str "suggestion") out = dict_get (str "suggestion") payload /\
    dict_get (str "confidence") out = dict_get (str "confidence") payload /\
    dict_get (str "reasoning") out = dict_get (str "reasoning") payload /\
    dict_get (str "human_review_required") out = Some (PBool true) /\
    dict_get (str "timestamp") out = Some (PStr (utcnow E 0 ++ str "Z")) /\
    (forall k, k <> str "human_review_required" -> k <> str "timestamp" ->
               dict_get k out = dict_get k payload).
Proof.
  intros E.
  assert (Hp : Json.loads Scenario.answer_text = Some (PDict ?[payload]))
    by by_computation.
  eexists. split; [exact Hp|]. split; [by_computation|].
  eapply (parsed_suggestion_is_stamped E Scenario.ollama Scenario.request
            _ _ _ Scenario.answer_text _ Scenario.fresh).
  - scenario_accepted.
  - scenario_composes.
  - scenario_answers.
  - exact Hp.
Defined.

(** C3, as amended.  A payload that is falsy, or an object in which
    [ssids] or [devices] is missing or is not a list, gets a 400 response
    with a non-empty reason, and the world is left as it was: the backend
    is not queried, nothing is logged or audited. *)
Theorem refused_payload_is_400 E ollama data w :
  refused data ->
  exists reason,
    reason <> [] /\
    App.suggest_vlan_grouping E ollama data w
    = (Ret (App.mkResponse 400 (App.error_body reason)), w).
Proof.
  unfold App.suggest_vlan_grouping.
  intros [Hf|(d & -> & Hd)].
  - rewrite Hf. eexists. split; [|reflexivity]. discriminate.
  - destruct d as [|kv d']; [eexists; split; [|reflexivity]; discriminate|].
    remember (kv :: d') as d eqn:Heq.
    assert (Ht : truthy (PDict d) = true) by now subst d.
    rewrite Ht. clear Ht Heq kv d'. run. unfold dict_has.
    destruct (dict_get (str "ssids") d) as [ssids|]; run;
      [|eexists; split; [|reflexivity]; discriminate].
    destruct (dict_get (str "devices") d) as [devices|]; run;
      [|eexists; split; [|reflexivity]; discriminate].
    destruct ssids; try (eexists; split; [|reflexivity]; discriminate).
    destruct devices; try (eexists; split; [|reflexivity]; discriminate).
    contradiction.
Qed.

Lemma refused_payload_is_400_witness :
  let E := Scenario.env_of (Scenario.generates Scenario.answer_text) None in
  let data := PDict [ (str "ssids", PStr (str "not-an-array"));
                      (str "devices",
                       PList [PDict [(str "mac", PStr (str "AA:BB:CC:DD:EE:FF"))]]) ] in
  refused data /\
  exists reason,
    reason <> [] /\
    App.suggest_vlan_grouping E Scenario.ollama data Scenario.fresh
    = (Ret (App.mkResponse 400 (App.error_body reason)), Scenario.fresh).
Proof.
  intros E data.
  assert (H : refused data).
  { right. eexists. split; [reflexivity|]. vm_compute. exact I. }
  split; [exact H|].
  exact (refused_payload_is_400 E Scenario.ollama data Scenario.fresh H).
Defined.

(** C3 as stated fails on an empty list of SSIDs, which is "not a
    non-empty list of SSID names": the handler accepts it, queries the
    backend once and answers 200.  (A list holding something else than
    names fails later, in [join], with status 500 and no query.) *)
Lemma empty_ssids_reach_backend :
  let empty := Scenario.run Scenario.healthy (Scenario.payload [] []) in
  let number :=
    Scenario.run Scenario.healthy
      (PDict [(str "ssids", PList [PInt 5]); (str "devices", PList [])]) in
  Scenario.status_of empty = Some 200%Z /\
  List.length (queries (snd empty)) = 1%nat /\
  Scenario.status_of number = Some 500%Z /\
  List.length (queries (snd number)) = 0%nat.
Proof. vm_compute. repeat split. Qed.

(** ** The MAC address and the prompt *)

Lemma collect_views_length (A : Type) (f : A -> outcome (list pyval)) l l' :
  map f l = map f l' -> List.length l = List.length l'.
Proof.
  intros H. apply (f_equal (@List.length _)) in H.
  now rewrite !length_map in H.
Qed.

(** The MAC address acts through its hashed identifier only.  The
    identifier of a record is the value of [sanitize_mac] on the entry's
    MAC; the sanitization loop reads an entry through its view only, in
    which the MAC is replaced by that identifier; and two requests with the
    same SSIDs whose entries have the same views -- the same hashed
    identifiers, signals and hostnames, whatever the MAC addresses -- make
    the handler do the same, prompt sent to the backend included. *)
Theorem mac_reaches_prompt_hashed E ollama w :
  (forall device mac record,
      py_getitem device (str "mac") = Ret mac ->
      device_view device = Ret [record] ->
      exists id signal hostname,
        App.sanitize_mac mac = Ret id /\
        record = PDict [ (str "device_id", PStr id);
                         (str "signal", signal);
                         (str "hostname", hostname) ]) /\
  (forall devices,
      sanitized_of (App.sanitize_devices devices [] [])
      = collect (map device_view devices) []) /\
  (forall data data' ssids devices devices',
      accepted data ssids devices ->
      accepted data' ssids devices' ->
      map device_view devices = map device_view devices' ->
      App.suggest_vlan_grouping E ollama data w
      = App.suggest_vlan_grouping E ollama data' w).
Proof.
  split; [|split].
  - intros device mac record Hmac. unfold device_view.
    destruct (py_in (str "mac") device) as [[|]|e]; cbn [negb]; try discriminate.
    rewrite Hmac.
    destruct (App.sanitize_mac mac) as [id|e]; [|discriminate].
    destruct (py_get device (str "signal") (PInt 0)); [|discriminate].
    destruct (py_get device (str "hostname") (PStr (str "unknown")));
      [|discriminate].
    intros [= <-]. eexists id, _, _. split; reflexivity.
  - intros devices. apply sanitize_devices_views.
  - intros data data' ssids devices devices'
           (d & -> & Hs & Hd) (d' & -> & Hs' & Hd') Hviews.
    pose proof (sanitize_devices_views devices [] []) as Hv.
    pose proof (sanitize_devices_views devices' [] []) as Hv'.
    rewrite <- Hviews in Hv'. rewrite <- Hv in Hv'. clear Hv.
    pose proof (collect_views_length _ _ _ _ Hviews) as Hlen.
    unfold App.suggest_vlan_grouping.
    assert (Ht : truthy (PDict d) = true) by (destruct d; [discriminate|reflexivity]).
    assert (Ht' : truthy (PDict d') = true) by (destruct d'; [discriminate|reflexivity]).
    rewrite Ht, Ht'. run. unfold dict_has. rewrite Hs, Hd, Hs', Hd'. cbn.
    destruct (App.sanitize_devices devices [] []) as [[sd tb]|e],
             (App.sanitize_devices devices' [] []) as [[sd' tb']|e'];
      cbn in Hv'; try discriminate; injection Hv' as <-; cbn.
    + unfold App.stamp_and_log. rewrite Hlen. reflexivity.
    + reflexivity.
Qed.

Lemma mac_reaches_prompt_hashed_witness :
  let E := Scenario.env_of (Scenario.generates Scenario.answer_text) None in
  Scenario.request_a <> Scenario.request_b /\
  App.suggest_vlan_grouping E Scenario.ollama Scenario.request_a Scenario.fresh
  = App.suggest_vlan_grouping E Scenario.ollama Scenario.request_b Scenario.fresh.
Proof.
  intros E. split; [discriminate|].
  eapply (proj2 (proj2 (mac_reaches_prompt_hashed E Scenario.ollama Scenario.fresh))).
  - scenario_accepted.
  - scenario_accepted.
  - by_computation.
Defined.


(** The scenario of the specification: the prompt holds both hashed
    identifiers and neither MAC address, and the answer comes back with
    status 200, the backend's confidence, and [human_review_required]
    forced to [true]; one audit record is written. *)
Example specification_scenario :
  let r := Scenario.run Scenario.healthy Scenario.request in
  Scenario.prompt_has "AA:BB:CC:DD:EE:FF" r = Some false /\
  Scenario.prompt_has "11:22:33:44:55:66" r = Some false /\
  Scenario.prompt_has "device-261900fb" r = Some true /\
  Scenario.prompt_has "device-f9687f1c" r = Some true /\
  Scenario.status_of r = Some 200%Z /\
  Scenario.field_of "human_review_required" r = Some (PBool true) /\
  Scenario.field_of "confidence" r = Some (PFloat (FDec false 87 (-2))) /\
  List.length (audit (snd r)) = 1%nat.
Proof. vm_compute. repeat split. Qed.

(** ** Outside the data model

    The statements above are about payloads as the interface types them.
    On a body or a device entry of another JSON type the handlers answer
    500, the [TypeError] or [AttributeError] of the first operation that
    does not apply being caught by the outer [except]. *)
Example outside_the_data_model :
  Scenario.status_of (Scenario.run Scenario.healthy (PInt 5)) = Some 500%Z /\
  Scenario.status_of
    (Scenario.run Scenario.healthy
       (Scenario.payload ["lab-101"]%string [PInt 17])) = Some 500%Z /\
  Scenario.status_of
    (Scenario.run Scenario.healthy
       (Scenario.payload ["lab-101"]%string [PDict [(str "mac", PNone)]]))
  = Some 500%Z /\
  Scenario.status_of
    (Scenario.run Scenario.healthy
       (Scenario.payload ["lab-101"]%string [PDict [(str "mac", PStr [0xD800])]]))
  = Some 500%Z /\
  Scenario.status_of (App.record_feedback Scenario.healthy (PBool true) Scenario.fresh)
  = Some 500%Z.
Proof. vm_compute. repeat split. Qed.

(** ** The grouping endpoint on every payload *)

Arguments App.stamp_and_log : simpl never.
Arguments App.log_ai_decision : simpl never.

(** The handler is its validation, then the composition of the prompt,
    then the query and the stamping, each failure going to the [except]
    clause. *)
Lemma vlan_run E ollama data w :
  App.suggest_vlan_grouping E ollama data w
  = match validated data with
    | Raise e => App.endpoint_except "vlan-group" e w
    | Ret (inl early) => (Ret early, w)
    | Ret (inr (ssids, devices)) =>
        match prompt_of E ssids devices with
        | Raise e => App.endpoint_except "vlan-group" e w
        | Ret prompt =>
            try_except
              (bind (log (LogQuerying (Z.of_nat (List.length devices))))
                 (fun _ => bind (OllamaClient.query E ollama prompt None)
                             (App.stamp_and_log E ssids devices)))
              (App.endpoint_except "vlan-group") w
        end
    end.
Proof.
  unfold App.suggest_vlan_grouping, validated, prompt_of.
  destruct (truthy data); run; [|reflexivity].
  destruct (py_in (str "ssids") data) as [[|]|e]; run; try reflexivity.
  destruct (py_in (str "devices") data) as [[|]|e]; run; try reflexivity.
  destruct (py_getitem data (str "ssids")) as [ssids|e]; run; try reflexivity.
  destruct (py_getitem data (str "devices")) as [devices|e]; run;
    try reflexivity.
  destruct ssids as [ |b|z|f|s|ssids|d]; try reflexivity;
    destruct devices as [ |b'|z'|f'|s'|devices|d']; try reflexivity.
  destruct (App.sanitize_devices devices [] []) as [sanitized|e]; run;
    [|reflexivity].
  destruct (py_join (str ", ") ssids) as [joined|e]; run; reflexivity.
Qed.

(** Whatever it returns or raises, [query] notes its prompt once, adds log
    lines, and leaves the clock and the audit trail alone. *)
Lemma query_world E self prompt system w :
  exists o lines,
    OllamaClient.query E self prompt system w
    = (o, mkWorld (ticks w) (audit w) (queries w ++ [prompt])
                  (logged w ++ lines)).
Proof.
  unfold OllamaClient.query.
  destruct (requests_post E _ _ _) as [x|k msg]; run.
  - destruct (status_code x =? 200)%Z; run;
      [|rewrite <- !app_assoc; eexists _, _; reflexivity].
    unfold reply_json. destruct (json x) as [v|]; run;
      [|rewrite <- !app_assoc; eexists _, _; reflexivity].
    destruct v as [ |b|z|f|s|l|d]; run;
      try (rewrite <- !app_assoc; eexists _, _; reflexivity).
    destruct (match dict_get (str "response") d with
              | Some x0 => x0 | None => PStr [] end)
      as [ |b|z|f|s|l|d']; run;
      rewrite <- !app_assoc; eexists _, _; reflexivity.
  - destruct k; run; rewrite <- !app_assoc; eexists _, _; reflexivity.
Qed.

Lemma log_ai_decision_run E query suggestion human_decision notes w :
  exists line,
    App.log_ai_decision E query suggestion human_decision notes w
    = (Ret tt,
       mkWorld (S (ticks w))
         (audit w ++
            match audit_fault E with
            | None =>
                [PDict [ (str "timestamp", PStr (utcnow E (ticks w) ++ str "Z"));
                         (str "query", PStr query);
                         (str "ai_suggestion", suggestion);
                         (str "human_decision", human_decision);
                         (str "notes", notes) ]]
            | Some _ => []
            end)
         (queries w) (logged w ++ [line])).
Proof.
  unfold App.log_ai_decision. destruct (audit_fault E); run.
  - rewrite app_nil_r. eexists. reflexivity.
  - eexists. reflexivity.
Qed.

(** From the backend's answer to the response: either the suggestion is
    stamped, audited and returned with status 200, or an exception leaves
    before the clock is read. *)
Lemma stamp_run E ssids devices ollama_response w :
  exists lines,
    App.stamp_and_log E ssids devices ollama_response w
    = match suggestion_of ollama_response with
      | Ret d =>
          let suggestion := PDict (stamped d (utcnow E (ticks w))) in
          (Ret (App.mkResponse 200 suggestion),
           mkWorld (S (S (ticks w)))
             (audit w ++
                match audit_fault E with
                | None => [suggestion_record E (S (ticks w)) ssids devices suggestion]
                | Some _ => []
                end)
             (queries w) (logged w ++ lines))
      | Raise e =>
          (Raise e, mkWorld (ticks w) (audit w) (queries w) (logged w ++ lines))
      end.
Proof.
  unfold App.stamp_and_log, App.parse_response, suggestion_of.
  destruct ollama_response as [ |b|z|f|s|l|d]; run;
    try (exists []; rewrite app_nil_r; destruct w; reflexivity).
  destruct (Json.loads s) as [v|]; run.
  - destruct v as [ |b|z|f|s'|l|d]; run;
      try (exists []; rewrite app_nil_r; destruct w; reflexivity).
    match goal with
    | |- context [App.log_ai_decision ?E ?q ?s ?h ?n ?w0] =>
        destruct (log_ai_decision_run E q s h n w0) as [line ->]
    end.
    cbn. exists [line]. reflexivity.
  - match goal with
    | |- context [App.log_ai_decision ?E ?q ?s ?h ?n ?w0] =>
        destruct (log_ai_decision_run E q s h n w0) as [line ->]
    end.
    cbn. rewrite <- app_assoc. eexists. reflexivity.
Qed.

Lemma validated_early data early :
  validated data = Ret (inl early) ->
  early = App.missing_fields \/ early = App.not_arrays.
Proof.
  unfold validated.
  destruct (truthy data); cbn [negb]; [|intros [= <-]; now left].
  destruct (py_in (str "ssids") data) as [[|]|e]; cbn [negb];
    try discriminate; [|intros [= <-]; now left].
  destruct (py_in (str "devices") data) as [[|]|e]; cbn [negb];
    try discriminate; [|intros [= <-]; now left].
  destruct (py_getitem data (str "ssids")) as [ssids|e]; [|discriminate].
  destruct (py_getitem data (str "devices")) as [devices|e]; [|discriminate].
  destruct ssids; try (intros [= <-]; now right);
    destruct devices; try (intros [= <-]; now right); discriminate.
Qed.

(** The four ways a request ends: an early 400 with the world untouched; a
    500 before anything was sent; a 500 after the prompt was sent; a 200
    with the stamped suggestion, audited unless the write fails. *)
Lemma vlan_cases E ollama data w :
  (exists early,
      validated data = Ret (inl early) /\
      App.suggest_vlan_grouping E ollama data w = (Ret early, w)) \/
  (exists e lines,
      App.suggest_vlan_grouping E ollama data w
      = (Ret (App.mkResponse 500 (App.error_body (exn_str e))),
         mkWorld (ticks w) (audit w) (queries w) (logged w ++ lines))) \/
  (exists ssids devices prompt e lines,
      validated data = Ret (inr (ssids, devices)) /\
      prompt_of E ssids devices = Ret prompt /\
      App.suggest_vlan_grouping E ollama data w
      = (Ret (App.mkResponse 500 (App.error_body (exn_str e))),
         mkWorld (ticks w) (audit w) (queries w ++ [prompt])
                 (logged w ++ lines))) \/
  (exists ssids devices prompt d lines,
      validated data = Ret (inr (ssids, devices)) /\
      prompt_of E ssids devices = Ret prompt /\
      App.suggest_vlan_grouping E ollama data w
      = (Ret (App.mkResponse 200 (PDict (stamped d (utcnow E (ticks w))))),
         mkWorld (S (S (ticks w)))
           (audit w ++
              match audit_fault E with
              | None =>
                  [suggestion_record E (S (ticks w)) ssids devices
                     (PDict (stamped d (utcnow E (ticks w))))]
              | Some _ => []
              end)
           (queries w ++ [prompt]) (logged w ++ lines))).
Proof.
  rewrite vlan_run.
  destruct (validated data) as [[early|[ssids devices]]|e] eqn:Hv.
  - left. eauto.
  - destruct (prompt_of E ssids devices) as [prompt|e] eqn:Hp.
    + unfold try_except, bind, log. cbn [fst snd].
      match goal with
      | |- context [OllamaClient.query ?E ?o ?p ?s ?w0] =>
          destruct (query_world E o p s w0) as (r & lines & Hq)
      end.
      cbn [ticks audit queries logged] in Hq.
      destruct r as [answer|e].
      * match type of Hq with
        | _ = (_, ?w1) =>
            destruct (stamp_run E ssids devices answer w1) as [lines' Hs]
        end.
        cbn [ticks audit queries logged] in Hs.
        destruct (suggestion_of answer) as [d|e] eqn:Hd.
        -- right; right; right.
           exists ssids, devices, prompt, d. eexists.
           split; [first [exact Hv|reflexivity]|]. split; [exact Hp|].
           rewrite Hq, Hs. cbn. rewrite <- !app_assoc. reflexivity.
        -- right; right; left.
           exists ssids, devices, prompt, e. eexists.
           split; [first [exact Hv|reflexivity]|]. split; [exact Hp|].
           rewrite Hq, Hs. unfold App.endpoint_except. run.
           rewrite <- !app_assoc. reflexivity.
      * right; right; left.
        exists ssids, devices, prompt, e. eexists.
        split; [first [exact Hv|reflexivity]|]. split; [exact Hp|].
        rewrite Hq. unfold App.endpoint_except. run.
        rewrite <- !app_assoc. reflexivity.
    + right; left. exists e. eexists.
      unfold App.endpoint_except. run. reflexivity.
  - right; left. exists e. eexists.
    unfold App.endpoint_except. run. reflexivity.
Qed.

(** X1.  Whatever the body is -- any JSON value -- and whatever the
    backend and the disk do, [suggest_vlan_grouping] does not raise: it
    returns a response, with status 200, or with status 400 or 500 and a
    body made of the single field [error]. *)
Theorem vlan_always_answers E ollama data w :
  exists resp w',
    App.suggest_vlan_grouping E ollama data w = (Ret resp, w') /\
    (App.status resp = 200%Z \/
     (App.status resp = 400%Z \/ App.status resp = 500%Z) /\
     exists msg, App.body resp = App.error_body msg).
Proof.
  destruct (vlan_cases E ollama data w)
    as [(early & Hv & ->)
       |[(e & lines & ->)
        |[(ssids & devices & prompt & e & lines & _ & _ & ->)
         |(ssids & devices & prompt & d & lines & _ & _ & ->)]]];
    eexists _, _; (split; [reflexivity|]); cbn.
  - right. destruct (validated_early _ _ Hv) as [-> | ->]; cbn;
      (split; [now left|eexists; reflexivity]).
  - right. split; [now right|eexists; reflexivity].
  - right. split; [now right|eexists; reflexivity].
  - now left.
Qed.

(** X2.  A request adds at most one record to the audit trail and never
    touches the earlier ones.  A record is added only together with a 200
    response and a successful write; it is the pending record of the
    suggestion, holding the very body that is returned. *)
Theorem vlan_audits_once E ollama data w :
  exists resp w' records,
    App.suggest_vlan_grouping E ollama data w = (Ret resp, w') /\
    audit w' = audit w ++ records /\
    (records = [] \/
     App.status resp = 200%Z /\ audit_fault E = None /\
     exists tick ssids devices,
       records = [suggestion_record E tick ssids devices (App.body resp)]).
Proof.
  destruct (vlan_cases E ollama data w)
    as [(early & Hv & ->)
       |[(e & lines & ->)
        |[(ssids & devices & prompt & e & lines & _ & _ & ->)
         |(ssids & devices & prompt & d & lines & _ & _ & ->)]]].
  - exists early, w, []. rewrite app_nil_r. auto.
  - eexists _, _, []. rewrite app_nil_r. cbn. auto.
  - eexists _, _, []. rewrite app_nil_r. cbn. auto.
  - eexists _, _, _. split; [reflexivity|]. cbn. split; [reflexivity|].
    destruct (audit_fault E); [now left|right].
    repeat split. eexists _, _, _. reflexivity.
Qed.

(** X3.  A request sends at most one prompt to the backend.  A 400
    response leaves the world exactly as it was -- no prompt, no log line,
    no clock reading -- and a 200 response always comes with exactly one
    prompt sent. *)
Theorem vlan_queries_once E ollama data w :
  exists resp w',
    App.suggest_vlan_grouping E ollama data w = (Ret resp, w') /\
    (queries w' = queries w \/ exists prompt, queries w' = queries w ++ [prompt]) /\
    (App.status resp = 400%Z -> w' = w) /\
    (App.status resp = 200%Z -> exists prompt, queries w' = queries w ++ [prompt]).
Proof.
  destruct (vlan_cases E ollama data w)
    as [(early & Hv & ->)
       |[(e & lines & ->)
        |[(ssids & devices & prompt & e & lines & _ & _ & ->)
         |(ssids & devices & prompt & d & lines & _ & _ & ->)]]];
    eexists _, _; (split; [reflexivity|]); cbn.
  - split; [now left|]. split; [reflexivity|].
    destruct (validated_early _ _ Hv) as [-> | ->]; discriminate.
  - split; [now left|]. split; discriminate.
  - split; [right; eauto|]. split; discriminate.
  - split; [right; eauto|]. split; [discriminate|eauto].
Qed.

(** X4.  Every 200 response of the endpoint is a JSON object in which
    [human_review_required] is [true] and [timestamp] is the clock reading
    taken for the request followed by ["Z"] -- whatever the request and
    whatever the backend generated. *)
Theorem success_is_stamped E ollama data w resp w' :
  App.suggest_vlan_grouping E ollama data w = (Ret resp, w') ->
  App.status resp = 200%Z ->
  exists d,
    App.body resp = PDict d /\
    dict_get (str "human_review_required") d = Some (PBool true) /\
    dict_get (str "timestamp") d = Some (PStr (utcnow E (ticks w) ++ str "Z")).
Proof.
  destruct (vlan_cases E ollama data w)
    as [(early & Hv & ->)
       |[(e & lines & ->)
        |[(ssids & devices & prompt & e & lines & _ & _ & ->)
         |(ssids & devices & prompt & d & lines & _ & _ & ->)]]];
    intros [= <- <-]; cbn; try discriminate.
  - destruct (validated_early _ _ Hv) as [-> | ->]; discriminate.
  - intros _. eexists. split; [reflexivity|]. unfold stamped. split.
    + rewrite dict_get_set_other by discriminate. apply dict_get_set_same.
    + apply dict_get_set_same.
Qed.

Lemma success_is_stamped_witness :
  exists resp w',
    App.suggest_vlan_grouping Scenario.healthy Scenario.ollama Scenario.request
      Scenario.fresh = (Ret resp, w') /\
    App.status resp = 200%Z /\
    exists d,
      App.body resp = PDict d /\
      dict_get (str "human_review_required") d = Some (PBool true) /\
      dict_get (str "timestamp") d
      = Some (PStr (utcnow Scenario.healthy (ticks Scenario.fresh) ++ str "Z")).
Proof.
  destruct (App.suggest_vlan_grouping Scenario.healthy Scenario.ollama
              Scenario.request Scenario.fresh) as [[resp|e] w'] eqn:Hrun.
  - assert (Hst : App.status resp = 200%Z).
    { apply (f_equal Scenario.status_of) in Hrun.
      vm_compute in Hrun. now injection Hrun. }
    exists resp, w'. split; [reflexivity|]. split; [exact Hst|].
    exact (success_is_stamped Scenario.healthy Scenario.ollama Scenario.request
             Scenario.fresh resp w' Hrun Hst).
  - apply (f_equal Scenario.status_of) in Hrun. vm_compute in Hrun.
    discriminate Hrun.
Defined.

(** The response of the handler, read off its phases. *)
Lemma vlan_response E ollama data w :
  fst (App.suggest_vlan_grouping E ollama data w)
  = match validated data with
    | Raise e => Ret (App.mkResponse 500 (App.error_body (exn_str e)))
    | Ret (inl early) => Ret early
    | Ret (inr (ssids, devices)) =>
        match prompt_of E ssids devices with
        | Raise e => Ret (App.mkResponse 500 (App.error_body (exn_str e)))
        | Ret prompt =>
            match
              (let? answer :=
                 fst (OllamaClient.query E ollama prompt None
                        (mkWorld (ticks w) (audit w) (queries w)
                           (logged w ++
                              [LogQuerying (Z.of_nat (List.length devices))]))) in
               suggestion_of answer)
            with
            | Ret d =>
                Ret (App.mkResponse 200 (PDict (stamped d (utcnow E (ticks w)))))
            | Raise e => Ret (App.mkResponse 500 (App.error_body (exn_str e)))
            end
        end
    end.
Proof.
  rewrite vlan_run.
  destruct (validated data) as [[early|[ssids devices]]|e]; try reflexivity.
  destruct (prompt_of E ssids devices) as [prompt|e]; [|reflexivity].
  unfold try_except, bind, log. cbn [fst snd].
  match goal with
  | |- context [OllamaClient.query ?E ?o ?p ?s ?w0] =>
      destruct (query_world E o p s w0) as (r & lines & Hq)
  end.
  cbn [ticks audit queries logged] in Hq. rewrite Hq. cbn [fst].
  destruct r as [answer|e]; [|reflexivity].
  match goal with
  | |- context [App.stamp_and_log ?E ?s ?d ?a ?w1] =>
      destruct (stamp_run E s d a w1) as [lines' ->]
  end.
  cbn [ticks]. destruct (suggestion_of answer); reflexivity.
Qed.

(** The prompts of a request: the one composed from the validated lists,
    if validation and composition succeed. *)
Lemma vlan_queries E ollama data w :
  queries (snd (App.suggest_vlan_grouping E ollama data w))
  = queries w ++
    match validated data with
    | Ret (inr (ssids, devices)) =>
        match prompt_of E ssids devices with
        | Ret prompt => [prompt]
        | Raise _ => []
        end
    | _ => []
    end.
Proof.
  destruct (vlan_cases E ollama data w)
    as [(early & Hv & ->)
       |[(e & lines & H)
        |[(ssids & devices & prompt & e & lines & Hv & Hp & ->)
         |(ssids & devices & prompt & d & lines & Hv & Hp & ->)]]];
    cbn [snd queries]; try (rewrite Hv, ?Hp; now rewrite ?app_nil_r).
  rewrite H. cbn [snd queries].
  rewrite vlan_run in H.
  destruct (validated data) as [[early|[ssids devices]]|e0];
    try (now rewrite app_nil_r).
  destruct (prompt_of E ssids devices) as [prompt|e0];
    [|now rewrite app_nil_r].
  exfalso. apply (f_equal (fun r => List.length (queries (snd r)))) in H.
  unfold try_except, bind, log in H. cbn [fst snd] in H.
  match type of H with
  | context [OllamaClient.query ?E ?o ?p ?s ?w0] =>
      destruct (query_world E o p s w0) as (r & lines0 & Hq)
  end.
  rewrite Hq in H. destruct r as [answer|e1].
  - match type of H with
    | context [App.stamp_and_log ?E ?s ?d ?a ?w1] =>
        destruct (stamp_run E s d a w1) as [lines' Hs]
    end.
    rewrite Hs in H. destruct (suggestion_of answer);
      unfold App.endpoint_except in H; cbn in H;
      rewrite length_app in H; cbn in H; lia.
  - unfold App.endpoint_except in H. cbn in H.
    rewrite length_app in H. cbn in H. lia.
Qed.

(** X5.  Whether the audit record can be written has no influence on what
    the caller gets, nor on what is sent to the backend: in surroundings
    that differ only in the fate of the audit write, the handler returns
    the same response and sends the same prompts. *)
Theorem audit_fault_is_not_surfaced E ollama data w fault fault' :
  fst (App.suggest_vlan_grouping (with_fault E fault) ollama data w)
  = fst (App.suggest_vlan_grouping (with_fault E fault') ollama data w) /\
  queries (snd (App.suggest_vlan_grouping (with_fault E fault) ollama data w))
  = queries (snd (App.suggest_vlan_grouping (with_fault E fault') ollama data w)).
Proof.
  split.
  - rewrite !vlan_response. reflexivity.
  - rewrite !vlan_queries. reflexivity.
Qed.

(** ** The feedback endpoint on every payload *)

(** X6.  Whatever the body is -- any JSON value -- [record_feedback] does
    not raise and never sends anything to the backend.  It answers 200,
    or 400 or 500 with a body made of the single field [error]; a 400
    leaves the world exactly as it was; the audit trail gets at most one
    new record, and only together with a 200. *)
Theorem feedback_always_answers E data w :
  exists resp w' records,
    App.record_feedback E data w = (Ret resp, w') /\
    queries w' = queries w /\
    audit w' = audit w ++ records /\
    (records = [] \/ App.status resp = 200%Z /\ exists r, records = [r]) /\
    (App.status resp = 200%Z \/
     (App.status resp = 400%Z \/ App.status resp = 500%Z) /\
     exists msg, App.body resp = App.error_body msg) /\
    (App.status resp = 400%Z -> w' = w).
Proof.
  unfold App.record_feedback, App.endpoint_except.
  assert (Early : exists resp w' records,
             (Ret App.missing_feedback_fields, w) = (Ret resp, w') /\
             queries w' = queries w /\
             audit w' = audit w ++ records /\
             (records = [] \/ App.status resp = 200%Z /\ exists r, records = [r]) /\
             (App.status resp = 200%Z \/
              (App.status resp = 400%Z \/ App.status resp = 500%Z) /\
              exists msg, App.body resp = App.error_body msg) /\
             (App.status resp = 400%Z -> w' = w)).
  { eexists _, _, []. split; [reflexivity|]. rewrite app_nil_r. cbn.
    repeat split; auto. right. split; [now left|eexists; reflexivity]. }
  assert (Failure : forall e lines, exists resp w' records,
             (Ret (App.mkResponse 500 (App.error_body (exn_str e))),
              mkWorld (ticks w) (audit w) (queries w) (logged w ++ lines))
             = (Ret resp, w') /\
             queries w' = queries w /\
             audit w' = audit w ++ records /\
             (records = [] \/ App.status resp = 200%Z /\ exists r, records = [r]) /\
             (App.status resp = 200%Z \/
              (App.status resp = 400%Z \/ App.status resp = 500%Z) /\
              exists msg, App.body resp = App.error_body msg) /\
             (App.status resp = 400%Z -> w' = w)).
  { intros e lines. eexists _, _, []. split; [reflexivity|].
    rewrite app_nil_r. cbn. repeat split; auto.
    - right. split; [now right|eexists; reflexivity].
    - discriminate. }
  destruct (truthy data); run; [|exact Early].
  destruct (py_in (str "timestamp") data) as [[|]|e]; run;
    [|exact Early|apply Failure].
  destruct (py_in (str "decision") data) as [[|]|e]; run;
    [|exact Early|apply Failure].
  destruct (py_getitem data (str "timestamp")) as [timestamp|e]; run;
    [|apply Failure].
  destruct (py_getitem data (str "decision")) as [decision|e]; run;
    [|apply Failure].
  destruct (py_get data (str "notes") (PStr [])) as [notes|e]; run;
    [|apply Failure].
  match goal with
  | |- context [App.log_ai_decision ?E ?q ?s ?h ?n ?w0] =>
      destruct (log_ai_decision_run E q s h n w0) as [line ->]
  end.
  cbn. eexists _, _, _. split; [reflexivity|]. cbn.
  split; [reflexivity|]. split; [reflexivity|].
  split; [|split; [now left|discriminate]].
  destruct (audit_fault E); [now left|right]. split; [reflexivity|eauto].
Qed.

(** ** What sanitization keeps and what the prompt shows *)

Lemma device_view_records device records :
  device_view device = Ret records ->
  Forall is_observation records /\ (List.length records <= 1)%nat.
Proof.
  unfold device_view.
  destruct (py_in (str "mac") device) as [[|]|e]; cbn [negb]; try discriminate;
    [|intros [= <-]; split; [constructor|cbn; lia]].
  destruct (py_getitem device (str "mac")) as [mac|e]; [|discriminate].
  destruct mac as [ |b|z|f|m|l|d]; cbn [App.sanitize_mac]; try discriminate.
  unfold Codec.encode. destruct (Codec.utf8 m) as [bytes|]; [|discriminate].
  change (str "device-" ++ firstn 8 (Hashlib.hexdigest bytes))
    with (hashed_identifier bytes).
  assert (Hobs : forall id, id = hashed_identifier bytes ->
                 forall signal hostname,
                   is_observation
                     (PDict [ (str "device_id", PStr id);
                              (str "signal", signal);
                              (str "hostname", hostname) ])).
  { intros id -> signal hostname. exists bytes, signal, hostname. reflexivity. }
  specialize (Hobs _ eq_refl). revert Hobs.
  generalize (hashed_identifier bytes) as id. intros id Hobs.
  destruct (py_get device (str "signal") (PInt 0)) as [signal|e]; [|discriminate].
  destruct (py_get device (str "hostname") (PStr (str "unknown")))
    as [hostname|e]; [|discriminate].
  intros [= <-]. split; [|cbn; lia].
  constructor; [apply Hobs|constructor].
Qed.

Lemma collect_records views :
  forall acc sanitized,
    (forall v records, In v views -> v = Ret records ->
                       Forall is_observation records /\
                       (List.length records <= 1)%nat) ->
    collect views acc = Ret sanitized ->
    Forall is_observation acc ->
    Forall is_observation sanitized /\
    (List.length sanitized <= List.length acc + List.length views)%nat.
Proof.
  induction views as [|[records|e] views IH]; intros acc sanitized Hv; cbn.
  - intros [= <-] Hacc. split; [exact Hacc|lia].
  - intros Hc Hacc.
    destruct (Hv (Ret records) records (or_introl eq_refl) eq_refl) as [Hr Hl].
    destruct (IH (acc ++ records) sanitized) as [Hs Hlen]; auto.
    + intros v r Hin. apply Hv. now right.
    + apply Forall_app. now split.
    + split; [exact Hs|]. rewrite length_app in Hlen. lia.
  - discriminate.
Qed.

Lemma sanitized_observations devices sanitized table :
  App.sanitize_devices devices [] [] = Ret (sanitized, table) ->
  Forall is_observation sanitized /\
  (List.length sanitized <= List.length devices)%nat.
Proof.
  intros H.
  pose proof (sanitize_devices_views devices [] []) as Hv.
  rewrite H in Hv. cbn in Hv. symmetry in Hv.
  destruct (collect_records (map device_view devices) [] sanitized) as [Hs Hl];
    auto.
  - intros v records Hin ->. apply in_map_iff in Hin as (device & Hd & _).
    now apply device_view_records in Hd.
  - split; [exact Hs|]. now rewrite length_map in Hl.
Qed.

(** X7.  Whenever the sanitization loop returns, every record it built has
    exactly the three fields [device_id], [signal] and [hostname], the
    first one a hashed identifier: the [mac] field and any other field of
    an entry are dropped.  There are never more records than entries. *)
Theorem sanitized_records_are_observations devices sanitized table :
  App.sanitize_devices devices [] [] = Ret (sanitized, table) ->
  Forall is_observation sanitized /\
  (List.length sanitized <= List.length devices)%nat.
Proof. apply sanitized_observations. Qed.

Lemma sanitized_records_are_observations_witness :
  let devices :=
    [ PDict [ (str "mac", PStr (str "AA:BB:CC:DD:EE:FF"));
              (str "signal", PInt (-45));
              (str "hostname", PStr (str "device-1"));
              (str "user", PStr (str "alice")) ];
      PDict [ (str "signal", PInt (-72)) ] ] in
  exists sanitized table,
    App.sanitize_devices devices [] [] = Ret (sanitized, table) /\
    Forall is_observation sanitized /\
    (List.length sanitized <= List.length devices)%nat.
Proof.
  intros devices.
  assert (H : App.sanitize_devices devices [] [] = Ret (?[s], ?[t]))
    by by_computation.
  eexists _, _. split; [exact H|].
  exact (sanitized_records_are_observations devices _ _ H).
Defined.

Lemma starts_with_app p s : starts_with p (p ++ s) = true.
Proof.
  induction p as [|c p IH]; cbn; [reflexivity|].
  now rewrite N.eqb_refl, IH.
Qed.

Lemma occurs_in_app p a b : occurs_in p (a ++ p ++ b) = true.
Proof.
  induction a as [|c a IH]; cbn [app].
  - destruct (p ++ b) eqn:Hpb; cbn; rewrite <- Hpb, starts_with_app; reflexivity.
  - cbn. rewrite IH. apply orb_true_r.
Qed.

Lemma join_split sep x items :
  In x items -> exists a b, join sep items = a ++ x ++ b.
Proof.
  induction items as [|y items IH]; [contradiction|].
  intros [->|Hin].
  - destruct items as [|z items]; cbn [join].
    + exists [], []. now rewrite app_nil_r.
    + exists [], (sep ++ join sep (z :: items)). reflexivity.
  - destruct (IH Hin) as (a & b & Hj).
    destruct items as [|z items]; [contradiction|].
    change (join sep (y :: z :: items)) with (y ++ sep ++ join sep (z :: items)).
    rewrite Hj. exists (y ++ sep ++ a), b. now rewrite <- !app_assoc.
Qed.

Lemma escape_plain c :
  32 <= c -> c <= 126 -> c <> 34 -> c <> 92 -> Json.escape_char c = [c].
Proof.
  intros H1 H2 H3 H4. unfold Json.escape_char.
  repeat match goal with
         | |- context [c =? ?k] =>
             destruct (N.eqb_spec c k); [subst; try lia; try contradiction|]
         end.
  assert (Hr : (32 <=? c) && (c <=? 126) = true).
  { apply andb_true_intro. split; apply N.leb_le; assumption. }
  now rewrite Hr.
Qed.

Lemma lower_hex_plain c :
  is_lower_hex c = true -> Json.escape_char c = [c].
Proof.
  unfold is_lower_hex. intros H. apply orb_prop in H.
  destruct H as [H|H]; apply andb_prop in H as [Ha Hb];
    apply N.leb_le in Ha, Hb; apply escape_plain; lia.
Qed.

Lemma flat_map_escape_plain l :
  Forall (fun c => Json.escape_char c = [c]) l ->
  flat_map Json.escape_char l = l.
Proof.
  induction 1 as [|c l Hc _ IH]; cbn [flat_map]; [reflexivity|].
  rewrite Hc, IH. reflexivity.
Qed.

Lemma hashed_identifier_plain bytes :
  Forall (fun c => Json.escape_char c = [c]) (hashed_identifier bytes).
Proof.
  destruct (hashed_identifier_shape bytes) as (_ & _ & Hhex).
  unfold hashed_identifier in *.
  apply Forall_app. split.
  - change (str "device-") with [100; 101; 118; 105; 99; 101; 45].
    repeat constructor.
  - assert (H : Forall (fun c => is_lower_hex c = true)
                  (firstn 8 (Hashlib.hexdigest bytes))) by exact Hhex.
    clear Hhex. induction H as [|c l Hc _ IH]; constructor; [|exact IH].
    now apply lower_hex_plain.
Qed.

(** A hashed identifier is encoded as itself between quotes. *)
Lemma encode_hashed_identifier bytes :
  Json.encode_str (hashed_identifier bytes)
  = App.quote ++ hashed_identifier bytes ++ App.quote.
Proof.
  unfold Json.encode_str.
  rewrite (flat_map_escape_plain _ (hashed_identifier_plain bytes)).
  reflexivity.
Qed.

Arguments hashed_identifier : simpl never.

Lemma shown_in_occurs p s : shown_in p s -> occurs_in p s = true.
Proof. intros (a & b & ->). apply occurs_in_app. Qed.

Lemma shown_in_middle p a s b : shown_in p s -> shown_in p (a ++ s ++ b).
Proof.
  intros (a' & b' & ->). exists (a ++ a'), (b' ++ b).
  now rewrite <- !app_assoc.
Qed.

Lemma shown_in_after p a s : shown_in p s -> shown_in p (a ++ s).
Proof.
  intros H. rewrite <- (app_nil_r s). now apply shown_in_middle.
Qed.

Lemma shown_in_before p s b : shown_in p s -> shown_in p (s ++ b).
Proof. intros H. now apply (shown_in_middle p [] s b). Qed.

Lemma shown_in_joined p sep x items :
  In x items -> shown_in p x -> shown_in p (join sep items).
Proof.
  intros Hin Hp. destruct (join_split sep x items Hin) as (a & b & ->).
  now apply shown_in_middle.
Qed.

(** A record of the loop is printed with its identifier between quotes. *)
Lemma observation_shows_identifier float_repr level bytes signal hostname :
  shown_in (App.quote ++ hashed_identifier bytes ++ App.quote)
    (Json.dumps_indent float_repr level
       (PDict [ (str "device_id", PStr (hashed_identifier bytes));
                (str "signal", signal); (str "hostname", hostname) ])).
Proof.
  cbn [Json.dumps_indent map fst snd].
  do 2 apply shown_in_after. apply shown_in_before.
  unfold Json.sep_items.
  eapply shown_in_joined; [left; reflexivity|].
  rewrite encode_hashed_identifier.
  exists (Json.encode_str (str "device_id") ++ str ": "), [].
  now rewrite app_nil_r, <- !app_assoc.
Qed.

Lemma list_shows_element p float_repr level x items :
  In x items ->
  shown_in p (Json.dumps_indent float_repr (S level) x) ->
  shown_in p (Json.dumps_indent float_repr level (PList items)).
Proof.
  intros Hin Hp. destruct items as [|first rest]; [contradiction|].
  cbn [Json.dumps_indent].
  do 2 apply shown_in_after. apply shown_in_before.
  unfold Json.sep_items.
  eapply shown_in_joined; [|exact Hp].
  now apply in_map.
Qed.

(** X8.  The prompt shows every sanitized device: for each record the loop
    built, its hashed identifier stands in the prompt between double
    quotes. *)
Theorem prompt_shows_every_identifier E devices sanitized table joined record id :
  App.sanitize_devices devices [] [] = Ret (sanitized, table) ->
  In record sanitized ->
  device_id_of record = Some id ->
  occurs_in (App.quote ++ id ++ App.quote) (App.build_prompt E joined sanitized)
  = true.
Proof.
  intros Hs Hin Hid.
  destruct (sanitized_observations _ _ _ Hs) as [Hobs _].
  rewrite Forall_forall in Hobs.
  destruct (Hobs record Hin) as (bytes & signal & hostname & Hrec).
  assert (Hi : id = hashed_identifier bytes).
  { rewrite Hrec in Hid.
    change (Some (hashed_identifier bytes) = Some id) in Hid. congruence. }
  subst id. apply shown_in_occurs.
  unfold App.build_prompt.
  do 3 apply shown_in_after. apply shown_in_before.
  eapply list_shows_element; [exact Hin|].
  rewrite Hrec. apply observation_shows_identifier.
Qed.

Lemma prompt_shows_every_identifier_witness :
  let devices :=
    [ PDict [ (str "mac", PStr (str "AA:BB:CC:DD:EE:FF"));
              (str "signal", PInt (-45)) ] ] in
  let record :=
    PDict [ (str "device_id", PStr (str "device-261900fb"));
            (str "signal", PInt (-45));
            (str "hostname", PStr (str "unknown")) ] in
  occurs_in (App.quote ++ str "device-261900fb" ++ App.quote)
    (App.build_prompt Scenario.healthy (str "Lab, Guest") [record]) = true.
Proof.
  intros devices record.
  apply (prompt_shows_every_identifier Scenario.healthy devices [record]
           [ (str "AA:BB:CC:DD:EE:FF", PStr (str "device-261900fb")) ]
           (str "Lab, Guest") record (str "device-261900fb")).
  - vm_compute. reflexivity.
  - left. reflexivity.
  - vm_compute. reflexivity.
Defined.

(** ** The two read-only endpoints *)

(** X9.  [/health] always answers 200: an unreachable backend shows in the
    body only.  [status] is ["healthy"] exactly when the version probe is
    answered with status 200, [ollama_reachable] says the same, and
    [unifi_reachable] is [true] whatever happens.  The audit trail and the
    backend queries are left alone. *)
Theorem health_is_always_200 E ollama w :
  let probe := requests_get E (OllamaClient.host ollama ++ str "/api/version") 5 in
  exists resp w' d,
    App.health E ollama w = (Ret resp, w') /\
    App.status resp = 200%Z /\
    App.body resp = PDict d /\
    (dict_get (str "status") d = Some (PStr (str "healthy"))
     <-> exists x, probe = Replied x /\ status_code x = 200%Z) /\
    (dict_get (str "status") d = Some (PStr (str "degraded"))
     <-> probe_ok probe = false) /\
    dict_get (str "ollama_reachable") d = Some (PBool (probe_ok probe)) /\
    dict_get (str "unifi_reachable") d = Some (PBool true) /\
    audit w' = audit w /\ queries w' = queries w.
Proof.
  intros probe. unfold App.health, OllamaClient.is_healthy. fold probe.
  destruct probe as [x|k msg] eqn:Hp; run.
  - destruct (status_code x =? 200)%Z eqn:Hs; run;
      do 3 eexists; (split; [reflexivity|]); cbn;
      repeat split; try reflexivity; try discriminate.
    + intros _. exists x. split; [reflexivity|]. now apply Z.eqb_eq.
    + intros (y & [= <-] & Hy). apply Z.eqb_eq in Hy. congruence.
  - do 3 eexists. split; [reflexivity|]. cbn.
    repeat split; try reflexivity; try discriminate.
    intros (y & Hy & _). discriminate.
Qed.

(** X10.  [/api/version] always answers 200 with the version the probe
    reports, ["unknown"] when there is none, and leaves the audit trail and
    the backend queries alone. *)
Theorem version_is_always_200 E ollama w :
  let probe := requests_get E (OllamaClient.host ollama ++ str "/api/version") 5 in
  exists resp w' d,
    App.version E ollama w = (Ret resp, w') /\
    App.status resp = 200%Z /\
    App.body resp = PDict d /\
    dict_get (str "ollama_version") d = Some (reported_version probe) /\
    dict_get (str "api_version") d = Some (PStr App.API_VERSION) /\
    audit w' = audit w /\ queries w' = queries w.
Proof.
  intros probe. unfold App.version, OllamaClient.get_version. fold probe.
  unfold reported_version.
  destruct probe as [x|k msg]; run.
  - destruct (status_code x =? 200)%Z; run.
    + unfold reply_json. destruct (json x) as [v|]; run.
      * destruct v as [ |b|z|f|s|l|d]; run;
          do 3 eexists; repeat split; reflexivity.
      * do 3 eexists; repeat split; reflexivity.
    + do 3 eexists; repeat split; reflexivity.
  - do 3 eexists; repeat split; reflexivity.
Qed.

(** ** The client's constructor *)

Lemma rstrip_spec c s :
  exists n, s = rstrip c s ++ repeat c n /\
            forall d, d <> c -> last (rstrip c s) d <> c.
Proof.
  induction s as [|e s (n & Hs & Hl)]; cbn [rstrip].
  - exists 0%nat. split; [reflexivity|]. intros d Hd. exact Hd.
  - destruct (rstrip c s) as [|r rs] eqn:Hr.
    + destruct (N.eqb_spec e c) as [->|Hne].
      * exists (S n). split; [now rewrite Hs|]. intros d Hd. exact Hd.
      * exists n. split; [now rewrite Hs|]. intros d _. exact Hne.
    + exists n. split; [now rewrite Hs at 1|].
      intros d Hd. change (last (e :: r :: rs) d) with (last (r :: rs) d).
      now apply Hl.
Qed.

(** X11.  The constructor drops every trailing slash of the host and
    nothing else: the host it was given is the stored one followed by
    slashes only, and the stored one does not end with a slash.  It never
    raises and leaves the audit trail and the backend queries alone. *)
Theorem init_strips_trailing_slashes host_ model_ timeout_ w :
  exists self w' n,
    OllamaClient.init host_ model_ timeout_ w = (Ret self, w') /\
    host_ = OllamaClient.host self ++ repeat 47 n /\
    last (OllamaClient.host self) 0 <> 47 /\
    OllamaClient.model self = model_ /\
    OllamaClient.timeout self = timeout_ /\
    audit w' = audit w /\ queries w' = queries w.
Proof.
  destruct (rstrip_spec 47 host_) as (n & Hs & Hl).
  unfold OllamaClient.init. run. do 2 eexists. exists n.
  split; [reflexivity|]. cbn. repeat split; [exact Hs|].
  apply Hl. discriminate.
Qed.

(** ** The two best-effort methods of the client *)

Ltac xrun :=
  unfold xtry, xbind, xret, xlift, xlog, within; cbn.

Lemma names_each items :
  forall models, Diagnostics.names items = Ret models ->
    Forall2 (fun item name => py_getitem item (str "name") = Ret name)
            items models.
Proof.
  induction items as [|item items IH]; intros models; cbn [Diagnostics.names].
  - intros [= <-]. constructor.
  - destruct (py_getitem item (str "name")) as [name|e] eqn:Hn; [|discriminate].
    destruct (Diagnostics.names items) as [others|e]; [|discriminate].
    intros [= <-]. constructor; [exact Hn|]. now apply IH.
Qed.

(** X12.  [list_models] never raises and touches nothing but its log.  It
    is all or nothing: a list that is not empty holds the [name] of every
    entry the reply lists under [models], in order, from a reply with
    status 200; one entry without a name, and the list is empty. *)
Theorem list_models_all_or_nothing E self x :
  let tags := requests_get E (OllamaClient.host self ++ str "/api/tags") 10 in
  exists models x',
    Diagnostics.list_models E self x = (Ret models, x') /\
    inner x' = inner x /\
    (models = [] \/
     exists r data listed items,
       tags = Replied r /\ status_code r = 200%Z /\ json r = Some data /\
       py_get data (str "models") (PList []) = Ret listed /\
       py_iter listed = Ret items /\
       Forall2 (fun item name => py_getitem item (str "name") = Ret name)
               items models).
Proof.
  intros tags. unfold Diagnostics.list_models. fold tags.
  destruct tags as [r|k msg] eqn:Ht; xrun;
    [|do 2 eexists; repeat split; now left].
  destruct (status_code r =? 200)%Z eqn:Hst; xrun;
    [|do 2 eexists; repeat split; now left].
  unfold reply_json. destruct (json r) as [data|] eqn:Hj; xrun;
    [|do 2 eexists; repeat split; now left].
  destruct (py_get data (str "models") (PList [])) as [listed|e] eqn:Hg; xrun;
    [|do 2 eexists; repeat split; now left].
  destruct (py_iter listed) as [items|e] eqn:Hi; xrun;
    [|do 2 eexists; repeat split; now left].
  destruct (Diagnostics.names items) as [models|e] eqn:Hn; xrun;
    [|do 2 eexists; repeat split; now left].
  do 2 eexists. split; [reflexivity|]. split; [reflexivity|]. right.
  exists r, data, listed, items. apply Z.eqb_eq in Hst.
  repeat split; try assumption. now apply names_each.
Qed.

(** X13.  [pull_model] never raises and touches nothing but its log.  It
    posts the model's name to [/api/pull] with a timeout of 300 seconds and
    returns [True] exactly when that is answered with status 200; the line
    announcing the pull is logged first in every case. *)
Theorem pull_model_never_raises E self model x :
  let pull := requests_post E (OllamaClient.host self ++ str "/api/pull")
                (PDict [(str "name", PStr model)]) 300 in
  exists x' later,
    Diagnostics.pull_model E self model x = (Ret (probe_ok pull), x') /\
    inner x' = inner x /\
    more_logged x' = more_logged x ++ LogPulling model :: later /\
    (probe_ok pull = true -> later = []).
Proof.
  intros pull. unfold Diagnostics.pull_model. fold pull.
  destruct pull as [r|k msg]; xrun.
  - exists (mkX (inner x) (more_logged x ++ [LogPulling model])), [].
    repeat split.
  - do 2 eexists. split; [reflexivity|]. split; [reflexivity|].
    rewrite <- app_assoc. split; [reflexivity|discriminate].
Qed.

(** ** The key check in front of the two protected endpoints *)

(** X14.  With a key configured, a request whose [X-API-Key] header is
    missing or differs from it is answered 401 and the handler is not run:
    nothing is sent to the backend and nothing is written to the audit
    trail, whatever the handler would have done. *)
Theorem wrong_key_is_401 API_KEY req func x :
  API_KEY <> [] ->
  x_api_key_differs API_KEY req ->
  exists x',
    Access.require_api_key API_KEY req func x = (Ret Access.unauthorized, x') /\
    inner x' = inner x /\
    more_logged x' = more_logged x ++ [LogInvalidKey (Access.remote_addr req)].
Proof.
  intros Hset Hdiff. unfold Access.require_api_key.
  destruct API_KEY as [|c key]; [contradiction|].
  assert (Hneq : pystr_eqb
                   match Access.x_api_key req with Some k => k | None => [] end
                   (c :: key) = false).
  { destruct (pystr_eqb _ (c :: key)) eqn:Hk; [|reflexivity].
    apply pystr_eqb_eq in Hk. unfold x_api_key_differs in Hdiff.
    destruct (Access.x_api_key req) as [k|]; [|discriminate].
    subst k. now contradiction Hdiff. }
  rewrite Hneq. xrun. eexists. repeat split.
Qed.

Lemma wrong_key_is_401_witness :
  let req := Access.mkRequest None (str "10.0.0.7") in
  exists x',
    Access.require_api_key (str "s3cret") req
      (App.suggest_vlan_grouping Scenario.healthy Scenario.ollama Scenario.request)
      (mkX Scenario.fresh [])
    = (Ret Access.unauthorized, x') /\
    inner x' = Scenario.fresh /\
    more_logged x' = [LogInvalidKey (str "10.0.0.7")].
Proof.
  intros req.
  apply (wrong_key_is_401 (str "s3cret") req
           (App.suggest_vlan_grouping Scenario.healthy Scenario.ollama
              Scenario.request)
           (mkX Scenario.fresh [])).
  - discriminate.
  - exact I.
Defined.



(** ** What [query] can return *)

(** X16.  When [query] returns, the request was answered with status 200
    by a JSON object, and what comes back is that object's [response]
    field (the empty string when there is none), which is a string or a
    list: any other value fails at [len] or at the slice and is raised,
    not returned.  The prompt has been sent once and the audit trail is
    as it was. *)
Theorem query_returns_text_or_list E self prompt system w v w' :
  OllamaClient.query E self prompt system w = (Ret v, w') ->
  ((exists s, v = PStr s) \/ (exists l, v = PList l)) /\
  (exists r fields,
      requests_post E (OllamaClient.host self ++ str "/api/generate")
        (OllamaClient.generate_payload self prompt system)
        (OllamaClient.timeout self) = Replied r /\
      status_code r = 200%Z /\
      json r = Some (PDict fields) /\
      v = match dict_get (str "response") fields with
          | Some answer => answer
          | None => PStr []
          end) /\
  queries w' = queries w ++ [prompt] /\
  audit w' = audit w.
Proof.
  unfold OllamaClient.query.
  destruct (requests_post E _ _ _) as [x|k msg]; run.
  - destruct (status_code x =? 200)%Z eqn:Hst; run; [|discriminate].
    apply Z.eqb_eq in Hst.
    unfold reply_json. destruct (json x) as [data|] eqn:Hj; run; [|discriminate].
    destruct data as [ |b|z|f|s|l|d]; run; try discriminate.
    destruct (match dict_get (str "response") d with
              | Some x0 => x0 | None => PStr [] end)
      as [ |b|z|f|s|l|d'] eqn:Ha; run; try discriminate;
      intros [= <- <-]; cbn;
      (split; [eauto|]); (split; [|split; reflexivity]);
      exists x, d; rewrite Ha; repeat split; assumption.
  - destruct k; run; discriminate.
Qed.

Lemma query_returns_text_or_list_witness :
  exists v w',
    OllamaClient.query Scenario.healthy Scenario.ollama (str "Group them") None
      Scenario.fresh = (Ret v, w') /\
    ((exists s, v = PStr s) \/ (exists l, v = PList l)) /\
    queries w' = [str "Group them"] /\
    audit w' = [].
Proof.
  destruct (OllamaClient.query Scenario.healthy Scenario.ollama
              (str "Group them") None Scenario.fresh) as [[v|e] w'] eqn:Hrun.
  - exists v, w'. split; [reflexivity|].
    destruct (query_returns_text_or_list Scenario.healthy Scenario.ollama
                (str "Group them") None Scenario.fresh v w' Hrun)
      as (Hv & _ & Hq & Ha).
    split; [exact Hv|]. split; [exact Hq|exact Ha].
  - apply (f_equal fst) in Hrun. vm_compute in Hrun. discriminate Hrun.
Defined.

(** ** The MAC table of the sanitization loop *)

Lemma sanitize_devices_step device rest acc table :
  App.sanitize_devices (device :: rest) acc table
  = (let? has_mac := py_in (str "mac") device in
     if negb has_mac then App.sanitize_devices rest acc table
     else
       let? mac := py_getitem device (str "mac") in
       let? sanitized_mac := App.sanitize_mac mac in
       let? signal := py_get device (str "signal") (PInt 0) in
       let? hostname := py_get device (str "hostname") (PStr (str "unknown")) in
       App.sanitize_devices rest
         (acc ++ [PDict [ (str "device_id", PStr sanitized_mac);
                          (str "signal", signal);
                          (str "hostname", hostname) ]])
         match mac with
         | PStr m => dict_set m (PStr sanitized_mac) table
         | _ => table
         end).
Proof. reflexivity. Qed.

Lemma sanitize_devices_table devices :
  forall acc table sanitized table',
    App.sanitize_devices devices acc table = Ret (sanitized, table') ->
    forall m v, dict_get m table' = Some v ->
      dict_get m table = Some v \/
      ((exists id, App.sanitize_mac (PStr m) = Ret id /\ v = PStr id) /\
       (exists device, In device devices /\
                       py_getitem device (str "mac") = Ret (PStr m))).
Proof.
  induction devices as [|device rest IH]; intros acc table sanitized table'.
  - cbn [App.sanitize_devices]. intros [= _ <-] m v Hm. now left.
  - rewrite sanitize_devices_step.
    destruct (py_in (str "mac") device) as [[|]|e]; cbn [negb];
      [ | intros Hrun m v Hm;
          destruct (IH _ _ _ _ Hrun m v Hm) as [Hold|(Hid & d & Hin & Hd)];
          [now left|right; split; [exact Hid|exists d; split; [now right|exact Hd]]]
        | discriminate ].
    destruct (py_getitem device (str "mac")) as [mac|e] eqn:Hmac; [|discriminate].
    destruct (App.sanitize_mac mac) as [id|e] eqn:Hsm; [|discriminate].
    destruct mac as [ |b|z|f|m0|l|d]; try discriminate Hsm.
    destruct (py_get device (str "signal") (PInt 0)) as [signal|e]; [|discriminate].
    destruct (py_get device (str "hostname") (PStr (str "unknown")))
      as [hostname|e]; [|discriminate].
    intros Hrun m v Hm.
    destruct (IH _ _ _ _ Hrun m v Hm) as [Hold|(Hid & d & Hin & Hd)].
    + destruct (pystr_eqb m m0) eqn:Heq.
      * apply pystr_eqb_eq in Heq. subst m0.
        rewrite dict_get_set_same in Hold. injection Hold as <-.
        right. split; [exists id; split; [exact Hsm|reflexivity]|].
        exists device. split; [now left|exact Hmac].
      * left. rewrite dict_get_set_other in Hold; [exact Hold|].
        intros ->. now rewrite pystr_eqb_refl in Heq.
    + right. split; [exact Hid|]. exists d. split; [now right|exact Hd].
Qed.

(** X17.  The MAC table the loop builds beside the sanitized list maps
    MAC strings of the request to their hashed identifiers and holds
    nothing else: every key is the [mac] of some entry, and its value is
    what [sanitize_mac] returns for it. *)
Theorem mac_table_is_hashed devices sanitized table m v :
  App.sanitize_devices devices [] [] = Ret (sanitized, table) ->
  dict_get m table = Some v ->
  (exists id, App.sanitize_mac (PStr m) = Ret id /\ v = PStr id) /\
  (exists device, In device devices /\
                  py_getitem device (str "mac") = Ret (PStr m)).
Proof.
  intros Hrun Hm.
  destruct (sanitize_devices_table devices [] [] sanitized table Hrun m v Hm)
    as [Hold|H]; [discriminate Hold|exact H].
Qed.

Lemma mac_table_is_hashed_witness :
  let device := PDict [ (str "mac", PStr (str "AA:BB:CC:DD:EE:FF"));
                        (str "signal", PInt (-45)) ] in
  (exists id, App.sanitize_mac (PStr (str "AA:BB:CC:DD:EE:FF")) = Ret id /\
              PStr (str "device-261900fb") = PStr id) /\
  (exists d, In d [device] /\
             py_getitem d (str "mac") = Ret (PStr (str "AA:BB:CC:DD:EE:FF"))).
Proof.
  intros device.
  apply (mac_table_is_hashed [device]
           [ PDict [ (str "device_id", PStr (str "device-261900fb"));
                     (str "signal", PInt (-45));
                     (str "hostname", PStr (str "unknown")) ] ]
           [ (str "AA:BB:CC:DD:EE:FF", PStr (str "device-261900fb")) ]
           (str "AA:BB:CC:DD:EE:FF") (PStr (str "device-261900fb"))).
  - vm_compute. reflexivity.
  - vm_compute. reflexivity.
Defined.

(** ** The raw MAC address is not in the prompt *)














Section Absent.
Variable m : pystr.
Hypothesis Hm : colon_notation m = true.



Lemma starts_plain_app a b : starts_plain a = true -> starts_plain (a ++ b) = true.
Proof. destruct a; [discriminate|trivial]. Qed.

Lemma ends_plain_app a b : ends_plain b = true -> ends_plain (a ++ b) = true.
Proof.
  unfold ends_plain. rewrite rev_app_distr. apply starts_plain_app.
Qed.



End Absent.





Section Prompt.
Variable E : env.
Variable m : pystr.
Hypothesis Hm : colon_notation m = true.







End Prompt.




(** A [mac] field need not hold an address: any string is hashed.  One
    that is not in colon notation can stand in the fixed text of the
    prompt, as ["101"] does in the example [lab-101] of the answer
    format. *)
Example mac_outside_colon_notation :
  let request := Scenario.payload ["guest"]%string
                   [Scenario.device "101" (-45) "tablet"] in
  colon_notation (str "101") = false /\
  repeats Scenario.healthy [PStr (str "guest")]
          [Scenario.device "101" (-45) "tablet"] (str "101") = false /\
  Scenario.prompt_has "101" (Scenario.run Scenario.healthy request) = Some true.
Proof. vm_compute. repeat split. Qed.

(** C7 as stated fails on an entry whose [mac] cannot be hashed -- [null],
    or a string holding a lone surrogate -- and on an entry that is not an
    object, such as a number, which has no [mac] either: the loop raises
    instead of skipping or hashing, and the whole request is answered 500
    with nothing sent to the backend, although its other entry is good. *)
Lemma unusable_entry_fails_the_request :
  let good := Scenario.device "AA:BB:CC:DD:EE:FF" (-45) "device-1" in
  let loop entry := fmap_fst (App.sanitize_devices [good; entry] [] []) in
  let run entry :=
    Scenario.run Scenario.healthy
      (Scenario.payload ["lab-101"]%string [good; entry]) in
  loop (PDict [(str "mac", PNone)]) = None /\
  loop (PDict [(str "mac", PStr [0xD800])]) = None /\
  loop (PInt 17) = None /\
  Scenario.status_of (run (PDict [(str "mac", PNone)])) = Some 500%Z /\
  Scenario.status_of (run (PDict [(str "mac", PStr [0xD800])])) = Some 500%Z /\
  Scenario.status_of (run (PInt 17)) = Some 500%Z /\
  queries (snd (run (PDict [(str "mac", PNone)]))) = [] /\
  queries (snd (run (PDict [(str "mac", PStr [0xD800])]))) = [] /\
  queries (snd (run (PInt 17))) = [].
Proof. vm_compute. repeat split. Qed.
